(** * Region shapes of the VOT toolkit: [vot/region/shapes.py]

    A shallow embedding of the four region classes ([Special],
    [Rectangle], [Polygon], [Mask]), of their conversions and of the
    mask compositing routine [get_array], followed by the properties
    the specification states about them.

    Conventions of the embedding.
    - A Python number stored in a rectangle or a polygon vertex is a
      finite [int] or [float]; both denote a rational, so coordinates
      are [Q].  Arithmetic on them is exact: the binary64 rounding of
      [+], [-], [*], [/] on floats, NaN and the infinities are outside
      the model.  Value equality of numbers (Python [==]) is [Qeq].
    - A numpy array is a list of rows together with its column count,
      so that the shapes (h, 0) and (0, w) stay distinct.  Its elements
      are integers; [astype(np.uint8)] is written out as reduction
      modulo 256.
    - A raised exception is the [Raise] branch of [result].
    - Objects that Python shares by reference live in an explicit
      [heap]; [copy.copy] duplicates the instance, not what its
      attributes point to. *)

From Stdlib Require Import ZArith QArith Qround Qabs Lia Lqa List.
From stdpp Require Import gmap list.

Open Scope Z_scope.

(** ** Exceptions and results *)

Inductive exn : Type :=
| ConversionException   (* shapes.py, class ConversionException *)
| ValueError            (* numpy: negative dimensions, shape mismatch, empty reduction *)
| AssertionError        (* a failed [assert] *)
| ExternalError.        (* raised inside vot.region.utils or cv2 *)

Inductive result (A : Type) : Type :=
| Ok (a : A)
| Raise (e : exn).
Arguments Ok {A} a.
Arguments Raise {A} e.

Definition bind {A B : Type} (r : result A) (k : A -> result B) : result B :=
  match r with
  | Ok a => k a
  | Raise e => Raise e
  end.

Notation "'do' x <- r ; k" := (bind r (fun x => k))
  (at level 10, x name, r at level 100, k at level 200).

(** ** Python numbers *)

Module py.

(** [min(a, b)]: the first argument unless the second is strictly smaller. *)
Definition min (a b : Q) : Q :=
  match (b ?= a)%Q with Lt => b | _ => a end.

(** [max(a, b)]: the first argument unless the second is strictly larger. *)
Definition max (a b : Q) : Q :=
  match (b ?= a)%Q with Gt => b | _ => a end.

(** [max(0, v)] on integers, as used for the clamped origin. *)
Definition maxz (a b : Z) : Z := if a <? b then b else a.

(** [round(v)] with no digits: nearest integer, ties to the even one.
    This is also what [np.round] computes. *)
Definition round (q : Q) : Z :=
  let f := Qfloor q in
  match (q - inject_Z f ?= 1 # 2)%Q with
  | Lt => f
  | Gt => f + 1
  | Eq => if Z.even f then f else f + 1
  end.

(** [sys.float_info.max], the largest finite binary64 value; it is an
    integer. *)
Definition float_max_int : Z := 2 ^ 1024 - 2 ^ 971.
Definition float_max : Q := inject_Z float_max_int.

(** Python slice bound: a negative index counts from the end, and the
    result is clamped to [0, len]. *)
Definition slice_index (len i : Z) : Z :=
  if i <? 0 then Z.max 0 (i + len) else Z.min i len.

(** [l[start:stop]] *)
Definition slice {A : Type} (l : list A) (start stop : Z) : list A :=
  let len := Z.of_nat (length l) in
  let lo := slice_index len start in
  let hi := slice_index len stop in
  take (Z.to_nat (hi - lo)) (drop (Z.to_nat lo) l).

(** Length of [l[start:stop]] computed from the length of [l] alone. *)
Definition slice_len (len start stop : Z) : nat :=
  Z.to_nat (slice_index len stop - slice_index len start).

End py.

(** A mask entry: 0 or 1. *)
Definition bit (v : Z) : Prop := v = 0 \/ v = 1.

(** ** numpy arrays of rank 2 *)

Module np.

Record ndarray : Type := mk_ndarray {
  ncols : nat;
  rows : list (list Z)
}.

Definition shape0 (a : ndarray) : Z := Z.of_nat (length (rows a)).
Definition shape1 (a : ndarray) : Z := Z.of_nat (ncols a).

(** Every row has [ncols] entries. *)
Definition wf (a : ndarray) : Prop :=
  Forall (fun r => length r = ncols a) (rows a).

(** All entries are 0 or 1. *)
Definition binary (a : ndarray) : Prop :=
  Forall (Forall bit) (rows a).

Definition full (v : Z) (h w : Z) : result ndarray :=
  if (h <? 0) || (w <? 0) then Raise ValueError
  else Ok (mk_ndarray (Z.to_nat w)
             (replicate (Z.to_nat h) (replicate (Z.to_nat w) v))).

(** [np.zeros((h, w), dtype=np.uint8)] *)
Definition zeros (h w : Z) : result ndarray := full 0 h w.

(** [np.ones((h, w), np.uint8)] *)
Definition ones (h w : Z) : result ndarray := full 1 h w.

Definition map (f : Z -> Z) (a : ndarray) : ndarray :=
  mk_ndarray (ncols a) (List.map (List.map f) (rows a)).

(** [a.astype(np.uint8)]: a fresh array, each entry reduced modulo 256. *)
Definition astype_uint8 (a : ndarray) : ndarray :=
  map (fun v => v mod 256) a.

(** [a[a > 0] = 1] *)
Definition set_positive_to_one (a : ndarray) : ndarray :=
  map (fun v => if 0 <? v then 1 else v) a.

(** [a[y0:y1, x0:x1]] *)
Definition get_slice (a : ndarray) (y0 y1 x0 x1 : Z) : ndarray :=
  mk_ndarray (py.slice_len (shape1 a) x0 x1)
    (List.map (fun r => py.slice r x0 x1) (py.slice (rows a) y0 y1)).

(** Row [i] of [src] seen through broadcasting to [h] rows. *)
Definition broadcast {A : Type} (n : nat) (l : list A) : list A :=
  match l with
  | [v] => replicate n v
  | _ => l
  end.

Definition broadcastable (src dst : nat) : bool :=
  (src =? dst)%nat || (src =? 1)%nat.

(** [a[y0:y1, x0:x1] = src], with numpy's broadcasting of [src]. *)
Definition set_slice (a : ndarray) (y0 y1 x0 x1 : Z) (src : ndarray)
  : result ndarray :=
  let ylo := Z.to_nat (py.slice_index (shape0 a) y0) in
  let xlo := Z.to_nat (py.slice_index (shape1 a) x0) in
  let th := py.slice_len (shape0 a) y0 y1 in
  let tw := py.slice_len (shape1 a) x0 x1 in
  if broadcastable (length (rows src)) th && broadcastable (ncols src) tw then
    let block := List.map (broadcast tw) (broadcast th (rows src)) in
    let old := take th (drop ylo (rows a)) in
    let new :=
      zip_with (fun r b => take xlo r ++ b ++ drop (xlo + tw) r) old block in
    Ok (mk_ndarray (ncols a)
          (take ylo (rows a) ++ new ++ drop (ylo + th) (rows a)))
  else Raise ValueError.

(** [np.pad(a, ((0, pad_y), (0, pad_x)), 'constant', constant_values=0)] *)
Definition pad (a : ndarray) (pad_y pad_x : Z) : result ndarray :=
  if (pad_y <? 0) || (pad_x <? 0) then Raise ValueError
  else
    let w := (ncols a + Z.to_nat pad_x)%nat in
    Ok (mk_ndarray w
          (List.map (fun r => r ++ replicate (Z.to_nat pad_x) 0) (rows a)
           ++ replicate (Z.to_nat pad_y) (replicate w 0))).

(** [np.min] and [np.max] of a vector; an empty one has no identity. *)
Definition min (l : list Z) : result Z :=
  match l with
  | [] => Raise ValueError
  | v :: l' => Ok (fold_left Z.min l' v)
  end.

Definition max (l : list Z) : result Z :=
  match l with
  | [] => Raise ValueError
  | v :: l' => Ok (fold_left Z.max l' v)
  end.

(** [a[i, j]] for an index inside the array; 0 is returned outside. *)
Definition entry (a : ndarray) (i j : nat) : Z :=
  match rows a !! i with
  | Some r => default 0 (r !! j)
  | None => 0
  end.

(** [.astype(np.int32)] on an integer: two's complement wrap-around. *)
Definition astype_int32 (v : Z) : Z :=
  (v + 2 ^ 31) mod 2 ^ 32 - 2 ^ 31.

End np.

(** ** The region classes *)

Inductive RegionType : Type := SPECIAL | RECTANGLE | POLYGON | MASK.

Record Special : Type := mk_Special { code : Z }.

Record Rectangle : Type := mk_Rectangle {
  rect_x : Q;
  rect_y : Q;
  rect_width : Q;
  rect_height : Q
}.

Definition point : Type := (Q * Q)%type.

Record Polygon : Type := mk_Polygon {
  count : nat;
  points : list point
}.

Record Mask : Type := mk_Mask {
  mask : np.ndarray;
  offset : Z * Z
}.

Inductive Region : Type :=
| RSpecial (s : Special)
| RRectangle (r : Rectangle)
| RPolygon (p : Polygon)
| RMask (m : Mask).

Definition Region_type (r : Region) : RegionType :=
  match r with
  | RSpecial _ => SPECIAL
  | RRectangle _ => RECTANGLE
  | RPolygon _ => POLYGON
  | RMask _ => MASK
  end.

(** *** Special *)

Definition Special_init (c : Z) : Special := mk_Special c.

Definition Special_copy (self : Special) : Special := Special_init (code self).

Definition Special_convert (self : Special) (rtype : RegionType) : result Region :=
  match rtype with
  | SPECIAL => Ok (RSpecial (Special_copy self))
  | _ => Raise ConversionException
  end.

(** *** Polygon: construction and bounding rectangle *)

(** The constructor's [assert points]; that the argument is a list of
    tuples is carried by its type. *)
Definition Polygon_init (pts : list point) : result Polygon :=
  match pts with
  | [] => Raise AssertionError
  | _ :: _ => Ok (mk_Polygon (length pts) pts)
  end.

(** The loop of [Polygon.convert(RECTANGLE)] over (top, bottom, left, right). *)
Definition bounds_step (acc : Q * Q * Q * Q) (pt : point) : Q * Q * Q * Q :=
  let '(top, bottom, left_, right_) := acc in
  (py.min top (snd pt), py.max bottom (snd pt),
   py.min left_ (fst pt), py.max right_ (fst pt)).

Definition bounds_init : Q * Q * Q * Q :=
  (py.float_max, - py.float_max, py.float_max, - py.float_max)%Q.

Definition Polygon_bounds (self : Polygon) : Rectangle :=
  let '(top, bottom, left_, right_) :=
    fold_left bounds_step (points self) bounds_init in
  mk_Rectangle left_ top (right_ - left_)%Q (bottom - top)%Q.

(** [Polygon.copy] is [copy(self)]: the copy has the fields of [self].
    What the two instances share is the subject of the heap model below. *)
Definition Polygon_copy (self : Polygon) : Polygon := self.

(** *** Rectangle *)

Definition Rectangle_init (x y width height : Q) : Rectangle :=
  mk_Rectangle x y width height.

(** [Rectangle.copy] is [copy(self)]. *)
Definition Rectangle_copy (self : Rectangle) : Rectangle := self.

Definition Rectangle_corners (self : Rectangle) : list point :=
  [ (rect_x self, rect_y self);
    (rect_x self + rect_width self, rect_y self);
    (rect_x self + rect_width self, rect_y self + rect_height self);
    (rect_x self, rect_y self + rect_height self) ]%Q.

Definition Rectangle_resize (self : Rectangle) (factor : Q) : Rectangle :=
  Rectangle_init (rect_x self * factor) (rect_y self * factor)
                 (rect_width self * factor) (rect_height self * factor)%Q.

Definition Rectangle_center (self : Rectangle) : point :=
  (rect_x self + rect_width self / 2, rect_y self + rect_height self / 2)%Q.

Section Conversions.

(** [vot.region.utils.mask2bbox] and [cv2.fillConvexPoly] are not part
    of this file; they are taken as given.  [None] stands for an
    exception raised inside them.  [fillConvexPoly img pts color]
    returns the image it leaves behind. *)
Variable mask2bbox : np.ndarray -> option (Z * Z * Z * Z).
Variable fillConvexPoly : np.ndarray -> list (Z * Z) -> Z -> option np.ndarray.

Definition external {A : Type} (o : option A) : result A :=
  match o with
  | Some a => Ok a
  | None => Raise ExternalError
  end.

(** *** Mask *)

(** [Mask._optimize] *)
Definition Mask_optimize (self : Mask) : result Mask :=
  do bounds <- external (mask2bbox (mask self));
  let '(b0, b1, b2, b3) := bounds in
  Ok (mk_Mask (np.get_slice (mask self) b1 b3 b0 b2) (b0, b1)).

(** [Mask.__init__] *)
Definition Mask_init (m : np.ndarray) (off : Z * Z) (optimize : bool)
  : result Mask :=
  let self := mk_Mask (np.set_positive_to_one (np.astype_uint8 m)) off in
  if optimize then Mask_optimize self else Ok self.

(** [Mask.copy] is [copy(self)]. *)
Definition Mask_copy (self : Mask) : Mask := self.

Definition Mask_convert (self : Mask) (rtype : RegionType) : result Region :=
  match rtype with
  | MASK => Ok (RMask (Mask_copy self))
  | RECTANGLE =>
      do bounds <- external (mask2bbox (mask self));
      let '(b0, b1, b2, b3) := bounds in
      Ok (RRectangle
            (Rectangle_init (inject_Z (b0 + fst (offset self)))
                            (inject_Z (b1 + snd (offset self)))
                            (inject_Z (b2 - b0)) (inject_Z (b3 - b1))))
  | POLYGON =>
      do bounds <- external (mask2bbox (mask self));
      let '(b0, b1, b2, b3) := bounds in
      do p <- Polygon_init
                [ (inject_Z b0, inject_Z b1); (inject_Z b2, inject_Z b1);
                  (inject_Z b2, inject_Z b3); (inject_Z b0, inject_Z b3) ];
      Ok (RPolygon p)
  | SPECIAL => Raise ConversionException
  end.

Definition Mask_get_array (self : Mask) (output_sz : option (Z * Z))
  : result np.ndarray :=
  let '(tl_x, tl_y) := offset self in
  let region_w := np.shape1 (mask self) in
  let region_h := np.shape0 (mask self) in
  do mask_ <- np.zeros (region_h + tl_y) (region_w + tl_x);
  let src_x0 := 0 in
  let src_y0 := 0 in
  let src_x1 := np.shape1 (mask self) in
  let src_y1 := np.shape0 (mask self) in
  let dst_x0 := tl_x in
  let dst_y0 := tl_y in
  let dst_x1 := tl_x + region_w in
  let dst_y1 := tl_y + region_h in
  do mask_ <-
    (if (0 <? dst_x1) && (0 <? dst_y1)
        && (dst_x0 <? np.shape1 mask_) && (dst_y0 <? np.shape0 mask_)
     then
       let '(src_x0, dst_x0) :=
         if dst_x0 <? 0 then (- dst_x0, 0) else (src_x0, dst_x0) in
       let '(src_y0, dst_y0) :=
         if dst_y0 <? 0 then (- dst_y0, 0) else (src_y0, dst_y0) in
       let '(src_x1, dst_x1) :=
         if np.shape1 mask_ <? dst_x1
         then (src_x1 - (dst_x1 - np.shape1 mask_), np.shape1 mask_)
         else (src_x1, dst_x1) in
       let '(src_y1, dst_y1) :=
         if np.shape0 mask_ <? dst_y1
         then (src_y1 - (dst_y1 - np.shape0 mask_), np.shape0 mask_)
         else (src_y1, dst_y1) in
       np.set_slice mask_ dst_y0 dst_y1 dst_x0 dst_x1
         (np.get_slice (mask self) src_y0 src_y1 src_x0 src_x1)
     else Ok mask_);
  match output_sz with
  | None => Ok mask_
  | Some (out_w, out_h) =>
      let pad_x := out_w - np.shape1 mask_ in
      let '(mask_, pad_x) :=
        if pad_x <? 0
        then (np.get_slice mask_ 0 (np.shape0 mask_) 0 (np.shape1 mask_ + pad_x), 0)
        else (mask_, pad_x) in
      let pad_y := out_h - np.shape0 mask_ in
      let '(mask_, pad_y) :=
        if pad_y <? 0
        then (np.get_slice mask_ 0 (np.shape0 mask_ + pad_y) 0 (np.shape1 mask_), 0)
        else (mask_, pad_y) in
      np.pad mask_ pad_y pad_x
  end.

(** *** Rectangle.convert *)

Definition Rectangle_convert (self : Rectangle) (rtype : RegionType)
  : result Region :=
  match rtype with
  | RECTANGLE => Ok (RRectangle (Rectangle_copy self))
  | POLYGON =>
      do p <- Polygon_init (Rectangle_corners self);
      Ok (RPolygon p)
  | MASK =>
      do ones <- np.ones (py.round (rect_height self)) (py.round (rect_width self));
      do m <- Mask_init ones
                (py.round (rect_x self), py.round (rect_y self)) false;
      Ok (RMask m)
  | SPECIAL => Raise ConversionException
  end.

(** *** Polygon.convert *)

(** The [MASK] branch.  [x_] and [y_] are 32-bit; the differences and
    sums formed from them are taken in [Z]. *)
Definition Polygon_to_mask (self : Polygon) : result Mask :=
  let x_ := List.map (fun p => np.astype_int32 (py.round (fst p))) (points self) in
  let y_ := List.map (fun p => np.astype_int32 (py.round (snd p))) (points self) in
  do min_x <- np.min x_;
  do min_y <- np.min y_;
  let tl_ := (py.maxz 0 min_x, py.maxz 0 min_y) in
  do max_x <- np.max x_;
  let w_ := max_x - fst tl_ + 1 in
  do max_y <- np.max y_;
  let h_ := max_y - snd tl_ + 1 in
  let points_norm :=
    zip_with (fun px py => (px - fst tl_, py - snd tl_)) x_ y_ in
  do m <- np.zeros h_ w_;
  do m <- external
            (fillConvexPoly m
               (List.map (fun p => (np.astype_int32 (fst p), np.astype_int32 (snd p)))
                         points_norm) 1);
  Mask_init m tl_ false.

Definition Polygon_convert (self : Polygon) (rtype : RegionType)
  : result Region :=
  match rtype with
  | POLYGON => Ok (RPolygon (Polygon_copy self))
  | RECTANGLE => Ok (RRectangle (Polygon_bounds self))
  | MASK => do m <- Polygon_to_mask self; Ok (RMask m)
  | SPECIAL => Raise ConversionException
  end.

(** [region.convert(rtype)], by dynamic dispatch on the class. *)
Definition convert (r : Region) (rtype : RegionType) : result Region :=
  match r with
  | RSpecial s => Special_convert s rtype
  | RRectangle r => Rectangle_convert r rtype
  | RPolygon p => Polygon_convert p rtype
  | RMask m => Mask_convert m rtype
  end.

End Conversions.

(** ** Instances on the heap

    [copy.copy(self)] and attribute access act on objects, and an
    attribute holding a list or an array holds a reference to it.  The
    heap maps an address to the object stored there; a [Polygon]
    instance stores the address of its point list and a [Mask] instance
    the address of its array. *)

Definition loc : Type := positive.

Inductive obj : Type :=
| OList (items : list point)
| OArray (a : np.ndarray)
| OSpecial (c : Z)
| ORectangle (r : Rectangle)
| OPolygon (n : nat) (pts : loc)
| OMask (m : loc) (off : Z * Z).

Abbreviation heap := (gmap loc obj).

(** A new object is placed at an address not in use. *)
Definition alloc (h : heap) (o : obj) : loc * heap :=
  let l := fresh (dom h) in (l, <[l := o]> h).

(** [copy.copy(self)]: a new instance with the same attribute bindings. *)
Definition copy_copy (h : heap) (self : loc) : option (loc * heap) :=
  match h !! self with
  | Some o => Some (alloc h o)
  | None => None
  end.

(** [Special.copy]: [Special(self._code)]. *)
Definition Special_copy_obj (h : heap) (self : loc) : option (loc * heap) :=
  match h !! self with
  | Some (OSpecial c) => Some (alloc h (OSpecial (code (Special_init c))))
  | _ => None
  end.

(** [Rectangle.copy], [Polygon.copy], [Mask.copy]: [copy(self)]. *)
Definition Rectangle_copy_obj (h : heap) (self : loc) : option (loc * heap) :=
  match h !! self with
  | Some (ORectangle _) => copy_copy h self
  | _ => None
  end.

Definition Polygon_copy_obj (h : heap) (self : loc) : option (loc * heap) :=
  match h !! self with
  | Some (OPolygon _ _) => copy_copy h self
  | _ => None
  end.

Definition Mask_copy_obj (h : heap) (self : loc) : option (loc * heap) :=
  match h !! self with
  | Some (OMask _ _) => copy_copy h self
  | _ => None
  end.

(** [region.copy()], dispatched on the class of [self]. *)
Definition copy_obj (h : heap) (self : loc) : option (loc * heap) :=
  match h !! self with
  | Some (OSpecial _) => Special_copy_obj h self
  | Some (ORectangle _) => Rectangle_copy_obj h self
  | Some (OPolygon _ _) => Polygon_copy_obj h self
  | Some (OMask _ _) => Mask_copy_obj h self
  | _ => None
  end.

(** [Rectangle.resize]: a new [Rectangle] built from the scaled fields. *)
Definition Rectangle_resize_obj (h : heap) (self : loc) (factor : Q)
  : option (loc * heap) :=
  match h !! self with
  | Some (ORectangle r) => Some (alloc h (ORectangle (Rectangle_resize r factor)))
  | _ => None
  end.

(** The field values of the instance at [a], references followed. *)
Definition load (h : heap) (a : loc) : option Region :=
  match h !! a with
  | Some (OSpecial c) => Some (RSpecial (mk_Special c))
  | Some (ORectangle r) => Some (RRectangle r)
  | Some (OPolygon n l) =>
      match h !! l with
      | Some (OList pts) => Some (RPolygon (mk_Polygon n pts))
      | _ => None
      end
  | Some (OMask l off) =>
      match h !! l with
      | Some (OArray a) => Some (RMask (mk_Mask a off))
      | _ => None
      end
  | _ => None
  end.

(** The mutable objects an instance refers to. *)
Definition storage (h : heap) (a : loc) : gset loc :=
  match h !! a with
  | Some (OPolygon _ l) => {[ l ]}
  | Some (OMask l _) => {[ l ]}
  | _ => ∅
  end.

(** [lst[i] = p] on the list object at [l]; an index out of range raises. *)
Definition list_setitem (h : heap) (l : loc) (i : nat) (p : point)
  : option heap :=
  match h !! l with
  | Some (OList items) =>
      if bool_decide (i < length items)%nat
      then Some (<[l := OList (<[i := p]> items)]> h)
      else None
  | _ => None
  end.

(** [arr[i, j] = v] on the array object at [l]. *)
Definition array_setitem (h : heap) (l : loc) (i j : nat) (v : Z)
  : option heap :=
  match h !! l with
  | Some (OArray a) =>
      match np.rows a !! i with
      | Some r =>
          if bool_decide (j < length r)%nat
          then Some (<[l := OArray (np.mk_ndarray (np.ncols a)
                                      (<[i := <[j := v]> r]> (np.rows a)))]> h)
          else None
      | None => None
      end
  | _ => None
  end.

(** The reference held in [self.points] / [self.mask]. *)
Definition points_ref (h : heap) (self : loc) : option loc :=
  match h !! self with
  | Some (OPolygon _ l) => Some l
  | _ => None
  end.

Definition mask_ref (h : heap) (self : loc) : option loc :=
  match h !! self with
  | Some (OMask l _) => Some l
  | _ => None
  end.

(** ** Further methods

    [Polygon.resize], the [draw] methods and the constructors as they
    act on the heap. *)

(** [Polygon.resize]: [Polygon([(p[0] * factor, p[1] * factor) for p in
    self.points])], through the constructor and its assertions. *)
Definition Polygon_resize (self : Polygon) (factor : Q) : result Polygon :=
  Polygon_init
    (List.map (fun p => (fst p * factor, snd p * factor)%Q) (points self)).

(** *** Drawing

    [DrawHandle] is not part of this file.  A handle is seen through the
    calls made on it: [handle.polygon(points, width, color)] and
    [handle.mask(mask, offset, color)], recorded in call order. *)

Definition color : Type := (Q * Q * Q * Q)%type.

Inductive handle_call : Type :=
| HandlePolygon (pts : list point) (width : Q) (c : color)
| HandleMask (bitmap : np.ndarray) (off : Z * Z) (c : color).

Definition DrawHandle : Type := list handle_call.

(** The default [color=(1, 0, 0, 0.7)]; the float 0.7 is
    3152519739159347 / 2^52. *)
Definition default_color : color :=
  (1, 0, 0, 3152519739159347 # 4503599627370496)%Q.

(** The default [width=1]. *)
Definition default_width : Q := 1%Q.

(** The arguments a call of [draw] supplies after the handle, by position
    or by keyword: [None] is an argument left out. *)
Record draw_args : Type := mk_draw_args {
  arg_color : option color;
  arg_width : option Q
}.

(** A call either returns or is refused when its arguments do not fit
    the signature. *)
Inductive call_result (A : Type) : Type :=
| Returned (a : A)
| TypeError.
Arguments Returned {A} a.
Arguments TypeError {A}.

(** [Special.draw(self, handle, color, width)]: both arguments are
    required, the body is [pass]. *)
Definition Special_draw (self : Special) (handle : DrawHandle) (args : draw_args)
  : call_result DrawHandle :=
  match arg_color args, arg_width args with
  | Some _, Some _ => Returned handle
  | _, _ => TypeError
  end.

(** [Rectangle.draw(self, handle, color=(1, 0, 0, 0.7), width=1)] *)
Definition Rectangle_draw (self : Rectangle) (handle : DrawHandle)
    (args : draw_args) : call_result DrawHandle :=
  let color := default default_color (arg_color args) in
  let width := default default_width (arg_width args) in
  let polygon :=
    [ (rect_x self, rect_y self);
      (rect_x self + rect_width self, rect_y self);
      (rect_x self + rect_width self, rect_y self + rect_height self);
      (rect_x self, rect_y self + rect_height self) ]%Q in
  Returned (handle ++ [HandlePolygon polygon width color]).

(** [Polygon.draw(self, handle, color=(1, 0, 0, 0.7), width=1)] *)
Definition Polygon_draw (self : Polygon) (handle : DrawHandle)
    (args : draw_args) : call_result DrawHandle :=
  let color := default default_color (arg_color args) in
  let width := default default_width (arg_width args) in
  Returned (handle ++ [HandlePolygon (points self) width color]).

(** [Mask.draw(self, handle, color=(1, 0, 0, 0.7))]: there is no [width]
    parameter. *)
Definition Mask_draw (self : Mask) (handle : DrawHandle) (args : draw_args)
  : call_result DrawHandle :=
  match arg_width args with
  | Some _ => TypeError
  | None =>
      let color := default default_color (arg_color args) in
      Returned (handle ++ [HandleMask (mask self) (offset self) color])
  end.

(** [region.draw(handle, ...)], dispatched on the class. *)
Definition draw (r : Region) (handle : DrawHandle) (args : draw_args)
  : call_result DrawHandle :=
  match r with
  | RSpecial s => Special_draw s handle args
  | RRectangle r => Rectangle_draw r handle args
  | RPolygon p => Polygon_draw p handle args
  | RMask m => Mask_draw m handle args
  end.

(** *** Constructors on the heap *)

(** [Polygon(points)] with [points] the object at [l]: the three
    assertions, then [self.count = len(points)] and [self.points =
    points], which stores the reference it was given. *)
Definition Polygon_new_obj (h : heap) (l : loc) : result (loc * heap) :=
  match h !! l with
  | Some (OList pts) =>
      match pts with
      | [] => Raise AssertionError
      | _ :: _ => Ok (alloc h (OPolygon (length pts) l))
      end
  | _ => Raise AssertionError
  end.

(** [lst.append(p)] on the list object at [l]. *)
Definition list_append (h : heap) (l : loc) (p : point) : option heap :=
  match h !! l with
  | Some (OList items) => Some (<[l := OList (items ++ [p])]> h)
  | _ => None
  end.

(** [Mask(mask, offset, optimize)] with [mask] the array object at [l].
    [mask.astype(np.uint8)] makes a new array, [self.mask[self.mask > 0]
    = 1] writes into that new array, and [_optimize] replaces it by
    [np.copy] of a slice, a new array again.  [None]: [l] holds no
    array. *)
Definition Mask_new_obj (mask2bbox : np.ndarray -> option (Z * Z * Z * Z))
    (h : heap) (l : loc) (off : Z * Z) (optimize : bool)
  : option (result (loc * heap)) :=
  match h !! l with
  | Some (OArray input) =>
      let '(l1, h1) := alloc h (OArray (np.astype_uint8 input)) in
      let h2 := <[l1 := OArray (np.set_positive_to_one (np.astype_uint8 input))]> h1 in
      let '(self, h3) := alloc h2 (OMask l1 off) in
      if optimize then
        match mask2bbox (np.set_positive_to_one (np.astype_uint8 input)) with
        | Some (b0, b1, b2, b3) =>
            let '(l2, h4) :=
              alloc h3 (OArray (np.get_slice
                                  (np.set_positive_to_one (np.astype_uint8 input))
                                  b1 b3 b0 b2)) in
            Some (Ok (self, <[self := OMask l2 (b0, b1)]> h4))
        | None => Some (Raise ExternalError)
        end
      else Some (Ok (self, h3))
  | _ => None
  end.

(** ** Reference definitions

    What the specification says in its own words, for comparison with
    the code above. *)

(** "any nonzero input value is normalized to 1" *)
Definition nonzero_to_one (v : Z) : Z := if v =? 0 then 0 else 1.

(** Numbers are compared by value, vertex by vertex. *)
Definition point_eq (p q : point) : Prop :=
  (fst p == fst q)%Q /\ (snd p == snd q)%Q.

Definition points_eq (ps qs : list point) : Prop := Forall2 point_eq ps qs.

Definition Rectangle_eq (r r' : Rectangle) : Prop :=
  (rect_x r == rect_x r')%Q /\ (rect_y r == rect_y r')%Q
  /\ (rect_width r == rect_width r')%Q /\ (rect_height r == rect_height r')%Q.

(** The corners of the box (x0, y0, x1, y1), in the order in which
    rectangle-to-polygon lists them. *)
Definition box_corners (b : Z * Z * Z * Z) : list point :=
  let '(x0, y0, x1, y1) := b in
  [ (inject_Z x0, inject_Z y0); (inject_Z x1, inject_Z y0);
    (inject_Z x1, inject_Z y1); (inject_Z x0, inject_Z y1) ].

(** A box of the bitmap's own frame moved to image coordinates:
    "offset already applied". *)
Definition shift_box (b : Z * Z * Z * Z) (off : Z * Z) : Z * Z * Z * Z :=
  let '(x0, y0, x1, y1) := b in
  (x0 + fst off, y0 + snd off, x1 + fst off, y1 + snd off).

(** The same through a mask: [q = p.copy(); q.mask[i, j] = v; p]. *)
Definition write_mask_copy_read_original (h : heap) (self : loc) (i j : nat) (v : Z)
  : option Region :=
  match copy_obj h self with
  | Some (a', h1) =>
      match mask_ref h1 a' with
      | Some l =>
          match array_setitem h1 l i j v with
          | Some h2 => load h2 self
          | None => None
          end
      | None => None
      end
  | None => None
  end.

(** The canvas entry at row [i], column [j] when the mask is laid at its
    offset: the mask entry that lands there, 0 everywhere else. *)
Definition composited (m : Mask) (i j : nat) : Z :=
  let si := Z.of_nat i - snd (offset m) in
  let sj := Z.of_nat j - fst (offset m) in
  if (0 <=? si) && (0 <=? sj)
  then np.entry (mask m) (Z.to_nat si) (Z.to_nat sj)
  else 0.

(** [r.convert(POLYGON).convert(RECTANGLE)] *)
Definition Rectangle_via_polygon
    (mask2bbox : np.ndarray -> option (Z * Z * Z * Z))
    (fillConvexPoly : np.ndarray -> list (Z * Z) -> Z -> option np.ndarray)
    (r : Rectangle) : result Region :=
  do p <- convert mask2bbox fillConvexPoly (RRectangle r) POLYGON;
  convert mask2bbox fillConvexPoly p RECTANGLE.

(** A bitmap of [h] rows and [w] columns holding [v] everywhere. *)
Definition constant_bitmap (v : Z) (h w : Z) : np.ndarray :=
  np.mk_ndarray (Z.to_nat w) (replicate (Z.to_nat h) (replicate (Z.to_nat w) v)).


(** Copy the polygon at [self], assign vertex [i] of the copy's point
    list, then read the original: [q = p.copy(); q.points[i] = pt; p]. *)
Definition write_copy_read_original (h : heap) (self : loc) (i : nat) (pt : point)
  : option Region :=
  match copy_obj h self with
  | Some (a', h1) =>
      match points_ref h1 a' with
      | Some l =>
          match list_setitem h1 l i pt with
          | Some h2 => load h2 self
          | None => None
          end
      | None => None
      end
  | None => None
  end.





(** A vertex with integer coordinates. *)
Definition int_point (z : Z * Z) : point := (inject_Z (fst z), inject_Z (snd z)).

(** * Properties *)

(** ** Slices and arrays *)

Lemma slice_index_range (len i : Z) :
  0 <= len -> 0 <= py.slice_index len i <= len.
Proof. unfold py.slice_index. destruct (i <? 0) eqn:E; lia. Qed.

Lemma slice_index_id (len i : Z) :
  0 <= i <= len -> py.slice_index len i = i.
Proof. unfold py.slice_index. destruct (i <? 0) eqn:E; lia. Qed.

Lemma slice_length {A : Type} (l : list A) (start stop : Z) :
  length (py.slice l start stop) = py.slice_len (Z.of_nat (length l)) start stop.
Proof.
  unfold py.slice, py.slice_len.
  pose proof (slice_index_range (Z.of_nat (length l)) start ltac:(lia)).
  pose proof (slice_index_range (Z.of_nat (length l)) stop ltac:(lia)).
  rewrite length_take, length_drop. lia.
Qed.

Lemma slice_all {A : Type} (l : list A) :
  py.slice l 0 (Z.of_nat (length l)) = l.
Proof.
  unfold py.slice. rewrite !slice_index_id by lia.
  rewrite Z.sub_0_r, Nat2Z.id. simpl. apply firstn_all.
Qed.

Lemma Forall_slice {A : Type} (P : A -> Prop) (l : list A) (start stop : Z) :
  Forall P l -> Forall P (py.slice l start stop).
Proof. intros H. unfold py.slice. by apply Forall_take, Forall_drop. Qed.

Lemma Forall_broadcast {A : Type} (P : A -> Prop) (n : nat) (l : list A) :
  Forall P l -> Forall P (np.broadcast n l).
Proof.
  intros H. destruct l as [|v [|w l]]; simpl; try done.
  apply Forall_replicate. by inversion H.
Qed.

Lemma Forall_zip_with_both {A B C : Type} (P : A -> Prop) (Q : B -> Prop)
    (R : C -> Prop) (f : A -> B -> C) (l : list A) (k : list B) :
  (forall a b, P a -> Q b -> R (f a b)) ->
  Forall P l -> Forall Q k -> Forall R (zip_with f l k).
Proof.
  intros Hf Hl. revert k. induction Hl as [|a l Ha Hl IH]; intros k Hk.
  - constructor.
  - destruct Hk as [|b k Hb Hk]; simpl; constructor; auto.
Qed.

Lemma binary_full (v h w : Z) (a : np.ndarray) :
  bit v -> np.full v h w = Ok a -> np.binary a.
Proof.
  unfold np.full. intros Hv. destruct (_ || _); [discriminate|].
  intros [= <-]. unfold np.binary. simpl.
  by apply Forall_replicate, Forall_replicate.
Qed.

Lemma binary_normalized (a : np.ndarray) :
  np.binary (np.set_positive_to_one (np.astype_uint8 a)).
Proof.
  unfold np.binary. simpl. rewrite List.map_map.
  apply List.Forall_map, Forall_forall. intros r _.
  rewrite List.map_map. apply List.Forall_map, Forall_forall. intros v _.
  pose proof (Z.mod_pos_bound v 256 ltac:(lia)).
  destruct (0 <? v mod 256) eqn:E; [by right | left; lia].
Qed.

Lemma binary_get_slice (a : np.ndarray) (y0 y1 x0 x1 : Z) :
  np.binary a -> np.binary (np.get_slice a y0 y1 x0 x1).
Proof.
  unfold np.binary. simpl. intros H.
  apply List.Forall_map. eapply Forall_impl; [by apply Forall_slice|].
  intros r Hr. by apply Forall_slice.
Qed.

Lemma binary_set_slice (a src a' : np.ndarray) (y0 y1 x0 x1 : Z) :
  np.binary a -> np.binary src ->
  np.set_slice a y0 y1 x0 x1 src = Ok a' -> np.binary a'.
Proof.
  unfold np.set_slice, np.binary. intros Ha Hs.
  destruct (_ && _); [|discriminate]. intros [= <-]. simpl.
  apply Forall_app. split; [by apply Forall_take|].
  apply Forall_app. split; [|by apply Forall_drop].
  eapply (Forall_zip_with_both (Forall bit) (Forall bit)).
  - intros r b Hr Hb. apply Forall_app. split; [by apply Forall_take|].
    apply Forall_app. split; [done | by apply Forall_drop].
  - by apply Forall_take, Forall_drop.
  - apply List.Forall_map. eapply Forall_impl; [by apply Forall_broadcast|].
    intros r Hr. by apply Forall_broadcast.
Qed.

Lemma binary_pad (a a' : np.ndarray) (pad_y pad_x : Z) :
  np.binary a -> np.pad a pad_y pad_x = Ok a' -> np.binary a'.
Proof.
  unfold np.pad, np.binary. intros Ha.
  destruct (_ || _); [discriminate|]. intros [= <-]. simpl.
  apply Forall_app. split.
  - apply List.Forall_map. eapply Forall_impl; [exact Ha|].
    intros r Hr. apply Forall_app. split; [done|].
    apply Forall_replicate. by left.
  - apply Forall_replicate, Forall_replicate. by left.
Qed.

(** ** The mask invariant *)

Section MaskInvariant.

Variable mask2bbox : np.ndarray -> option (Z * Z * Z * Z).

Lemma Mask_init_plain (input : np.ndarray) (off : Z * Z) :
  Mask_init mask2bbox input off false
  = Ok (mk_Mask (np.map (fun v => nonzero_to_one (v mod 256)) input) off).
Proof.
  unfold Mask_init, np.set_positive_to_one, np.astype_uint8, np.map. simpl.
  do 2 f_equal. f_equal. rewrite List.map_map. apply List.map_ext. intros r.
  rewrite List.map_map. apply List.map_ext. intros v.
  pose proof (Z.mod_pos_bound v 256 ltac:(lia)). unfold nonzero_to_one.
  destruct (0 <? v mod 256) eqn:E1, (v mod 256 =? 0) eqn:E2; lia.
Qed.

Lemma Mask_optimize_binary (m m' : Mask) :
  np.binary (mask m) -> Mask_optimize mask2bbox m = Ok m' ->
  np.binary (mask m').
Proof.
  unfold Mask_optimize. intros Hb.
  destruct (mask2bbox (mask m)) as [[[[b0 b1] b2] b3]|]; simpl; [|discriminate].
  intros [= <-]. simpl. by apply binary_get_slice.
Qed.

Lemma Mask_init_binary (input : np.ndarray) (off : Z * Z) (optimize : bool)
    (m : Mask) :
  Mask_init mask2bbox input off optimize = Ok m -> np.binary (mask m).
Proof.
  unfold Mask_init. destruct optimize.
  - apply Mask_optimize_binary. simpl. apply binary_normalized.
  - intros [= <-]. simpl. apply binary_normalized.
Qed.

Lemma Mask_get_array_binary (m : Mask) (output_sz : option (Z * Z))
    (a : np.ndarray) :
  np.binary (mask m) -> Mask_get_array m output_sz = Ok a -> np.binary a.
Proof.
  unfold Mask_get_array. intros Hb. destruct (offset m) as [tl_x tl_y].
  destruct (np.zeros _ _) as [c0|] eqn:Hz; simpl; [|discriminate].
  apply binary_full in Hz; [|by left].
  match goal with
  | |- context [bind ?r _] => destruct r as [c1|] eqn:Hc
  end; simpl; [|discriminate].
  assert (np.binary c1) as H1.
  { destruct (_ && _) in Hc; [|by inversion Hc; subst].
    repeat match type of Hc with
    | context [if ?b then _ else _] => destruct b
    end; eapply binary_set_slice in Hc; eauto using binary_get_slice. }
  destruct output_sz as [[out_w out_h]|]; [|by intros [= <-]].
  repeat match goal with
  | |- context [if ?b then _ else _] => destruct b
  end; intros Hp; eapply binary_pad in Hp; eauto using binary_get_slice.
Qed.

End MaskInvariant.

(** ** Shapes *)






Lemma get_slice_shape (a : np.ndarray) (y0 y1 x0 x1 : Z) :
  np.wf a ->
  np.wf (np.get_slice a y0 y1 x0 x1)
  /\ length (np.rows (np.get_slice a y0 y1 x0 x1))
     = py.slice_len (np.shape0 a) y0 y1
  /\ np.ncols (np.get_slice a y0 y1 x0 x1) = py.slice_len (np.shape1 a) x0 x1.
Proof.
  intros Hwf. unfold np.wf, np.get_slice. simpl. repeat split.
  - apply List.Forall_map. eapply Forall_impl; [by apply Forall_slice|].
    intros r Hr. simpl in Hr. rewrite slice_length, Hr. reflexivity.
  - rewrite List.length_map. apply slice_length.
Qed.




Lemma slice_len_id (len lo hi : Z) :
  0 <= lo <= len -> 0 <= hi <= len ->
  py.slice_len len lo hi = Z.to_nat (hi - lo).
Proof. intros. unfold py.slice_len. by rewrite !slice_index_id. Qed.



(** ** Entries of the composited canvas *)

Lemma lookup_map {A B : Type} (f : A -> B) (l : list A) (i : nat) :
  List.map f l !! i = f <$> l !! i.
Proof.
  revert i. induction l as [|a l IH]; intros [|i]; simpl; try reflexivity.
  apply IH.
Qed.

Lemma lookup_slice {A : Type} (l : list A) (start stop : Z) (i : nat) :
  py.slice l start stop !! i
  = if (i <? py.slice_len (Z.of_nat (length l)) start stop)%nat
    then l !! (Z.to_nat (py.slice_index (Z.of_nat (length l)) start) + i)%nat
    else None.
Proof.
  unfold py.slice, py.slice_len.
  destruct (Nat.ltb_spec i
              (Z.to_nat (py.slice_index (Z.of_nat (length l)) stop
                         - py.slice_index (Z.of_nat (length l)) start))).
  - rewrite lookup_take_lt by done. apply lookup_drop.
  - by apply lookup_take_ge.
Qed.


Lemma entry_get_slice (a : np.ndarray) (y0 y1 x0 x1 : Z) (i j : nat) :
  np.wf a ->
  np.entry (np.get_slice a y0 y1 x0 x1) i j
  = if (i <? py.slice_len (np.shape0 a) y0 y1)%nat
       && (j <? py.slice_len (np.shape1 a) x0 x1)%nat
    then np.entry a (Z.to_nat (py.slice_index (np.shape0 a) y0) + i)
                    (Z.to_nat (py.slice_index (np.shape1 a) x0) + j)
    else 0.
Proof.
  intros Hwf. unfold np.entry, np.get_slice. simpl.
  rewrite lookup_map, lookup_slice. fold (np.shape0 a).
  destruct (i <? py.slice_len (np.shape0 a) y0 y1)%nat; [|reflexivity].
  simpl. destruct (np.rows a !! _) as [r|] eqn:Hr; simpl;
    [|by destruct (j <? _)%nat].
  assert (length r = np.ncols a) as Hlen.
  { unfold np.wf in Hwf. rewrite Forall_forall in Hwf.
    eapply Hwf, list_elem_of_lookup_2, Hr. }
  rewrite lookup_slice, Hlen. fold (np.shape1 a).
  by destruct (j <? py.slice_len (np.shape1 a) x0 x1)%nat.
Qed.







Ltac bool_cases :=
  repeat match goal with
  | |- context [(?a <? ?b)%nat] => destruct (Nat.ltb_spec a b)
  | |- context [(?a <=? ?b)%nat] => destruct (Nat.leb_spec a b)
  | |- context [?a <? ?b] => destruct (Z.ltb_spec a b)
  | |- context [?a <=? ?b] => destruct (Z.leb_spec a b)
  end; cbn [andb orb].


(** ** Mask compositing *)

(** A 4x4 mask of ones at offset (-2, -3): only its last row and last two
    columns lie at non-negative coordinates, and the canvas is 1 x 2. *)
Example Mask_get_array_negative_offset :
  Mask_get_array (mk_Mask (constant_bitmap 1 4 4) (-2, -3)) None
  = Ok (np.mk_ndarray 2 [[1; 1]]).
Proof. reflexivity. Qed.

(** The same mask on a 3 x 3 canvas. *)
Example Mask_get_array_negative_offset_sized :
  Mask_get_array (mk_Mask (constant_bitmap 1 4 4) (-2, -3)) (Some (3, 3))
  = Ok (np.mk_ndarray 3 [[1; 1; 0]; [0; 0; 0]; [0; 0; 0]]).
Proof. reflexivity. Qed.

(** C2: [get_array] is to return a bitmap of the requested size also for
    a mask with a negative offset.  For the 1x1 mask at offset (-2, 0),
    which lies wholly left of the image origin, and the requested size
    3x3, the canvas allocation [np.zeros((1, -1))] raises [ValueError]
    and no bitmap is returned. *)
Theorem Mask_get_array_left_of_origin :
  Mask_get_array (mk_Mask (np.mk_ndarray 1 [[1]]) (-2, 0)) (Some (3, 3))
  = Raise ValueError.
Proof. reflexivity. Qed.

(** ** Mask construction *)

(** C8, as stated, fails: the input entry 256 is nonzero, yet the cast to
    [uint8] makes it 0 before the comparison with 0, and it stays 0. *)
Lemma Mask_init_entry_256 :
  Mask_init (fun _ => None) (np.mk_ndarray 1 [[256]]) (0, 0) false
  = Ok (mk_Mask (np.mk_ndarray 1 [[0]]) (0, 0))
  /\ np.map nonzero_to_one (np.mk_ndarray 1 [[256]]) = np.mk_ndarray 1 [[1]].
Proof. split; reflexivity. Qed.

(** C8 (amended): after construction every bitmap value is 0 or 1; an
    input entry becomes 1 when it is nonzero after the cast to [uint8]
    (nonzero modulo 256) and 0 otherwise, so for inputs in 0..255 every
    nonzero entry becomes 1 and every zero entry stays 0; [_optimize],
    [get_array] and [convert(MASK)] keep the values in {0,1}. *)
Theorem Mask_bitmap_invariant
    (mask2bbox : np.ndarray -> option (Z * Z * Z * Z))
    (input : np.ndarray) (off : Z * Z) (optimize : bool) (m : Mask) :
  Mask_init mask2bbox input off optimize = Ok m ->
  np.binary (mask m)
  /\ (optimize = false ->
      mask m = np.map (fun v => nonzero_to_one (v mod 256)) input
      /\ (Forall (Forall (fun v => 0 <= v < 256)) (np.rows input) ->
          mask m = np.map nonzero_to_one input))
  /\ (forall m', Mask_optimize mask2bbox m = Ok m' -> np.binary (mask m'))
  /\ (forall output_sz a, Mask_get_array m output_sz = Ok a -> np.binary a)
  /\ (forall m', Mask_convert mask2bbox m MASK = Ok (RMask m') ->
      np.binary (mask m')).
Proof.
  intros Hinit. pose proof (Mask_init_binary _ _ _ _ _ Hinit) as Hb.
  split; [exact Hb|]. split; [|split; [|split]].
  - intros ->. rewrite Mask_init_plain in Hinit. injection Hinit as <-.
    split; [reflexivity|]. simpl. intros Hr. unfold np.map. f_equal.
    apply List.map_ext_Forall. eapply Forall_impl; [exact Hr|].
    intros r Hv. simpl in Hv. apply List.map_ext_Forall.
    eapply Forall_impl; [exact Hv|]. intros v Hrange. simpl.
    by rewrite Z.mod_small.
  - intros m'. by apply Mask_optimize_binary.
  - intros sz a. by apply Mask_get_array_binary.
  - intros m' [= <-]. exact Hb.
Qed.

Lemma Mask_bitmap_invariant_witness :
  let m := mk_Mask (np.mk_ndarray 2 [[0; 1]; [1; 1]]) (3, 4) in
  np.binary (mask m)
  /\ (false = false ->
      mask m = np.map (fun v => nonzero_to_one (v mod 256))
                 (np.mk_ndarray 2 [[0; 7]; [255; 257]])
      /\ (Forall (Forall (fun v => 0 <= v < 256))
            (np.rows (np.mk_ndarray 2 [[0; 7]; [255; 257]])) ->
          mask m = np.map nonzero_to_one (np.mk_ndarray 2 [[0; 7]; [255; 257]])))
  /\ (forall m', Mask_optimize (fun _ => Some (1, 0, 2, 2)) m = Ok m' ->
      np.binary (mask m'))
  /\ (forall output_sz a, Mask_get_array m output_sz = Ok a -> np.binary a)
  /\ (forall m', Mask_convert (fun _ => Some (1, 0, 2, 2)) m MASK = Ok (RMask m') ->
      np.binary (mask m')).
Proof.
  apply (Mask_bitmap_invariant (fun _ => Some (1, 0, 2, 2))
           (np.mk_ndarray 2 [[0; 7]; [255; 257]]) (3, 4) false).
  reflexivity.
Defined.

(** ** Mask to polygon *)

(** C1: [Mask.convert(POLYGON)] is to list the corners of the bounding
    box in absolute image coordinates.  The code lists the corners of
    the box in the bitmap's own frame: whenever the offset is not (0, 0)
    the polygon differs from the box with the offset applied, while
    [Mask.convert(RECTANGLE)] on the same mask does apply the offset. *)
Theorem Mask_convert_polygon_drops_offset
    (mask2bbox : np.ndarray -> option (Z * Z * Z * Z))
    (m : Mask) (b : Z * Z * Z * Z) :
  mask2bbox (mask m) = Some b ->
  offset m <> (0, 0) ->
  Mask_convert mask2bbox m POLYGON = Ok (RPolygon (mk_Polygon 4 (box_corners b)))
  /\ ~ points_eq (box_corners b) (box_corners (shift_box b (offset m)))
  /\ exists r, Mask_convert mask2bbox m RECTANGLE = Ok (RRectangle r)
       /\ points_eq (Rectangle_corners r) (box_corners (shift_box b (offset m))).
Proof.
  intros Hb Hoff. destruct b as [[[x0 y0] x1] y1].
  destruct (offset m) as [ox oy] eqn:Eo.
  unfold Mask_convert. rewrite Hb, Eo. simpl. split; [reflexivity|]. split.
  - intros Heq. inversion Heq as [|? ? ? ? [Hx Hy] _]; subst. simpl in Hx, Hy.
    apply (proj1 (inject_Z_injective _ _)) in Hx.
    apply (proj1 (inject_Z_injective _ _)) in Hy.
    apply Hoff. f_equal; lia.
  - eexists. split; [reflexivity|].
    unfold Rectangle_corners, points_eq, point_eq. simpl.
    repeat constructor; simpl; rewrite <- ?inject_Z_plus;
      try reflexivity; apply inject_Z_injective; lia.
Qed.

Lemma Mask_convert_polygon_drops_offset_witness :
  let m := mk_Mask (np.mk_ndarray 1 [[1]]) (3, 4) in
  let bbox := fun _ : np.ndarray => Some (0, 0, 1, 1) in
  Mask_convert bbox m POLYGON
  = Ok (RPolygon (mk_Polygon 4 (box_corners (0, 0, 1, 1))))
  /\ ~ points_eq (box_corners (0, 0, 1, 1)) (box_corners (shift_box (0, 0, 1, 1) (offset m)))
  /\ exists r, Mask_convert bbox m RECTANGLE = Ok (RRectangle r)
       /\ points_eq (Rectangle_corners r) (box_corners (shift_box (0, 0, 1, 1) (offset m))).
Proof.
  apply (Mask_convert_polygon_drops_offset (fun _ => Some (0, 0, 1, 1))
           (mk_Mask (np.mk_ndarray 1 [[1]]) (3, 4)) (0, 0, 1, 1)).
  - reflexivity.
  - discriminate.
Defined.

(** ** Construction of polygons *)

(** C9: constructing a [Polygon] from the empty list fails on the
    constructor's assertion, and from any non-empty list of coordinate
    pairs it succeeds, with [count] the length of the list and [points]
    the list itself. *)
Theorem Polygon_init_nonempty :
  Polygon_init [] = Raise AssertionError
  /\ forall (pt : point) (pts : list point),
       Polygon_init (pt :: pts)
       = Ok (mk_Polygon (length (pt :: pts)) (pt :: pts)).
Proof. split; reflexivity. Qed.

(** ** Rounding *)



(** ** Rectangle to mask *)




(** ** Conversion errors *)

Section ConversionErrors.

Variable mask2bbox : np.ndarray -> option (Z * Z * Z * Z).
Variable fillConvexPoly : np.ndarray -> list (Z * Z) -> Z -> option np.ndarray.

Lemma full_not_conversion (v h w : Z) :
  np.full v h w <> Raise ConversionException.
Proof. unfold np.full. by destruct (_ || _). Qed.

Lemma external_not_conversion {A : Type} (o : option A) :
  external o <> Raise ConversionException.
Proof. by destruct o. Qed.

Lemma Polygon_to_mask_not_conversion (p : Polygon) :
  Polygon_to_mask mask2bbox fillConvexPoly p <> Raise ConversionException.
Proof.
  unfold Polygon_to_mask, np.min, np.max.
  destruct (points p) as [|pt pts]; simpl; [discriminate|].
  match goal with
  | |- context [np.zeros ?h ?w] =>
      pose proof (full_not_conversion 0 h w) as Hz;
      unfold np.zeros; destruct (np.full 0 h w) as [m0|e]
  end; simpl; [|congruence].
  match goal with
  | |- context [external ?o] =>
      pose proof (external_not_conversion o) as He; destruct (external o)
  end; simpl; [|congruence].
  discriminate.
Qed.

Lemma convert_SPECIAL_source (s : Special) (rtype : RegionType) :
  convert mask2bbox fillConvexPoly (RSpecial s) rtype
  = match rtype with
    | SPECIAL => Ok (RSpecial s)
    | _ => Raise ConversionException
    end.
Proof. destruct s, rtype; reflexivity. Qed.

Lemma convert_ConversionException (r : Region) (rtype : RegionType) :
  convert mask2bbox fillConvexPoly r rtype = Raise ConversionException
  <-> (Region_type r = SPECIAL /\ rtype <> SPECIAL)
      \/ (Region_type r <> SPECIAL /\ rtype = SPECIAL).
Proof.
  split.
  - destruct r as [s|r|p|m], rtype; simpl; intros H;
      try discriminate H;
      try (left; split; [reflexivity | discriminate]);
      try (right; split; [discriminate | reflexivity]); exfalso.
    + unfold np.ones in H.
      pose proof (full_not_conversion 1 (py.round (rect_height r))
                    (py.round (rect_width r))) as Hf.
      destruct (np.full _ _ _); simpl in H; [|congruence].
      discriminate H.
    + pose proof (Polygon_to_mask_not_conversion p) as Hp.
      destruct (Polygon_to_mask _ _ _); simpl in H; congruence.
    + destruct (mask2bbox (mask m)) as [[[[b0 b1] b2] b3]|]; discriminate H.
    + destruct (mask2bbox (mask m)) as [[[[b0 b1] b2] b3]|]; discriminate H.
  - intros [[Hr Ht]|[Hr Ht]].
    + destruct r; try discriminate Hr. by destruct rtype.
    + subst rtype. by destruct r.
Qed.

End ConversionErrors.

(** C4, as stated, fails: [Special] is not the only variant with a failing
    target, since a [Rectangle] asked for [SPECIAL] reaches the final
    [else] of its [convert] and raises [ConversionException]. *)
Lemma Rectangle_convert_SPECIAL_raises :
  Region_type (RRectangle (mk_Rectangle 0 0 1 1)) <> SPECIAL
  /\ convert (fun _ => None) (fun _ _ _ => None)
       (RRectangle (mk_Rectangle 0 0 1 1)) SPECIAL
     = Raise ConversionException.
Proof. split; [discriminate | reflexivity]. Qed.

(** C4 (amended): a [Special] region converted to any target other than
    [SPECIAL] raises [ConversionException], and converted to [SPECIAL]
    gives a [Special] with the same code; [Rectangle], [Polygon] and
    [Mask] raise [ConversionException] for the target [SPECIAL] and for
    no other target, so the exception is raised exactly when one of
    source and target is [SPECIAL] and the other is not. *)
Theorem convert_ConversionException_iff
    (mask2bbox : np.ndarray -> option (Z * Z * Z * Z))
    (fillConvexPoly : np.ndarray -> list (Z * Z) -> Z -> option np.ndarray)
    (s : Special) (r : Region) (rtype : RegionType) :
  convert mask2bbox fillConvexPoly (RSpecial s) rtype
  = match rtype with
    | SPECIAL => Ok (RSpecial (mk_Special (code s)))
    | _ => Raise ConversionException
    end
  /\ (convert mask2bbox fillConvexPoly r rtype = Raise ConversionException
      <-> (Region_type r = SPECIAL /\ rtype <> SPECIAL)
          \/ (Region_type r <> SPECIAL /\ rtype = SPECIAL)).
Proof.
  split.
  - rewrite convert_SPECIAL_source. by destruct s.
  - apply convert_ConversionException.
Qed.

(** ** Rectangle to polygon and back *)

Lemma py_min_r (a b : Q) : (b <= a)%Q -> (py.min a b == b)%Q.
Proof.
  intros H. unfold py.min. destruct (b ?= a)%Q eqn:E; try reflexivity.
  - symmetry. by apply Qeq_alt.
  - apply (proj1 (Qle_alt _ _)) in H. congruence.
Qed.

Lemma py_min_l (a b : Q) : (a <= b)%Q -> (py.min a b == a)%Q.
Proof.
  intros H. unfold py.min. destruct (b ?= a)%Q eqn:E; try reflexivity.
  apply (proj2 (Qlt_alt _ _)) in E. lra.
Qed.

Lemma py_max_r (a b : Q) : (a <= b)%Q -> (py.max a b == b)%Q.
Proof.
  intros H. unfold py.max. destruct (b ?= a)%Q eqn:E; try reflexivity.
  - symmetry. by apply Qeq_alt.
  - apply (proj2 (Qlt_alt _ _)) in E. lra.
Qed.

Lemma py_max_l (a b : Q) : (b <= a)%Q -> (py.max a b == a)%Q.
Proof.
  intros H. unfold py.max. destruct (b ?= a)%Q eqn:E; try reflexivity.
  apply (proj2 (Qgt_alt _ _)) in E. lra.
Qed.

#[local] Instance py_min_proper : Proper (Qeq ==> Qeq ==> Qeq) py.min.
Proof.
  intros a a' Ha b b' Hb. unfold py.min. rewrite Ha, Hb.
  by destruct (b' ?= a')%Q.
Qed.

#[local] Instance py_max_proper : Proper (Qeq ==> Qeq ==> Qeq) py.max.
Proof.
  intros a a' Ha b b' Hb. unfold py.max. rewrite Ha, Hb.
  by destruct (b' ?= a')%Q.
Qed.

(** The bounding rectangle of the four corners of a rectangle with
    non-negative extent, all of it inside the range of finite floats. *)
Lemma Polygon_bounds_corners (r : Rectangle) :
  (0 <= rect_width r)%Q -> (0 <= rect_height r)%Q ->
  (- py.float_max <= rect_x r)%Q -> (rect_x r <= py.float_max)%Q ->
  (- py.float_max <= rect_y r)%Q -> (rect_y r <= py.float_max)%Q ->
  Rectangle_eq (Polygon_bounds (mk_Polygon 4 (Rectangle_corners r))) r.
Proof.
  destruct r as [x y w h].
  cbn [rect_x rect_y rect_width rect_height]. intros Hw Hh Hx0 Hx1 Hy0 Hy1.
  unfold Polygon_bounds, Rectangle_corners, Rectangle_eq, bounds_init.
  cbn [points fold_left bounds_step fst snd rect_x rect_y rect_width rect_height].
  assert (py.min py.float_max x == x)%Q as E1 by (apply py_min_r; lra).
  assert (py.max (- py.float_max) x == x)%Q as E2 by (apply py_max_r; lra).
  assert (py.min py.float_max y == y)%Q as E3 by (apply py_min_r; lra).
  assert (py.max (- py.float_max) y == y)%Q as E4 by (apply py_max_r; lra).
  assert (py.min x (x + w) == x)%Q as E5 by (apply py_min_l; lra).
  assert (py.min x x == x)%Q as E6 by (apply py_min_l; lra).
  assert (py.max x (x + w) == x + w)%Q as E7 by (apply py_max_r; lra).
  assert (py.max (x + w) (x + w) == x + w)%Q as E8 by (apply py_max_l; lra).
  assert (py.max (x + w) x == x + w)%Q as E9 by (apply py_max_l; lra).
  assert (py.min y y == y)%Q as E10 by (apply py_min_l; lra).
  assert (py.min y (y + h) == y)%Q as E11 by (apply py_min_l; lra).
  assert (py.max y y == y)%Q as E12 by (apply py_max_l; lra).
  assert (py.max y (y + h) == y + h)%Q as E13 by (apply py_max_r; lra).
  assert (py.max (y + h) (y + h) == y + h)%Q as E14 by (apply py_max_l; lra).
  assert (py.min (py.min (py.min (py.min py.float_max x) (x + w)) (x + w)) x == x)%Q
    as Hleft by (by rewrite E1, E5, E5, E6).
  assert (py.max (py.max (py.max (py.max (- py.float_max) x) (x + w)) (x + w)) x
          == x + w)%Q as Hright by (by rewrite E2, E7, E8, E9).
  assert (py.min (py.min (py.min (py.min py.float_max y) y) (y + h)) (y + h) == y)%Q
    as Htop by (by rewrite E3, E10, E11, E11).
  assert (py.max (py.max (py.max (py.max (- py.float_max) y) y) (y + h)) (y + h)
          == y + h)%Q as Hbottom by (by rewrite E4, E12, E13, E14).
  repeat split.
  - exact Hleft.
  - exact Htop.
  - rewrite Hright, Hleft. ring.
  - rewrite Hbottom, Htop. ring.
Qed.

(** C5, as stated, fails: the rectangle (0, 0, -5, 3) has integer fields,
    and its polygon converts back to the bounding rectangle
    (-5, 0, 5, 3). *)
Lemma Rectangle_via_polygon_negative_width :
  Rectangle_via_polygon (fun _ => None) (fun _ _ _ => None)
    (mk_Rectangle 0 0 (-5) 3)
  = Ok (RRectangle (mk_Rectangle (-5) 0 5 3))
  /\ ~ Rectangle_eq (mk_Rectangle (-5) 0 5 3) (mk_Rectangle 0 0 (-5) 3).
Proof.
  split; [vm_compute; reflexivity|].
  intros (Hx & _). vm_compute in Hx. discriminate Hx.
Qed.

(** C5 (amended): for every rectangle with integer x, y, width, height,
    with width and height not negative and x, y strictly between
    -[sys.float_info.max] and [sys.float_info.max] (so that every
    comparison against the initial bounds picks the integer),
    converting to [POLYGON] and back to [RECTANGLE] gives
    a rectangle with the same (x, y, width, height); the intermediate
    polygon is the ordered 4-point trace
    (x,y), (x+width,y), (x+width,y+height), (x,y+height). *)
Theorem Rectangle_polygon_roundtrip
    (mask2bbox : np.ndarray -> option (Z * Z * Z * Z))
    (fillConvexPoly : np.ndarray -> list (Z * Z) -> Z -> option np.ndarray)
    (x y w h : Z) :
  0 <= w -> 0 <= h ->
  - py.float_max_int < x < py.float_max_int ->
  - py.float_max_int < y < py.float_max_int ->
  let r := mk_Rectangle (inject_Z x) (inject_Z y) (inject_Z w) (inject_Z h) in
  convert mask2bbox fillConvexPoly (RRectangle r) POLYGON
  = Ok (RPolygon (mk_Polygon 4
          [ (inject_Z x, inject_Z y);
            (inject_Z x + inject_Z w, inject_Z y);
            (inject_Z x + inject_Z w, inject_Z y + inject_Z h);
            (inject_Z x, inject_Z y + inject_Z h) ]%Q))
  /\ exists r', Rectangle_via_polygon mask2bbox fillConvexPoly r = Ok (RRectangle r')
       /\ Rectangle_eq r' r.
Proof.
  intros Hw Hh Hx Hy r. split; [reflexivity|].
  exists (Polygon_bounds (mk_Polygon 4 (Rectangle_corners r))).
  split; [reflexivity|].
  apply Polygon_bounds_corners; subst r;
    cbn [rect_x rect_y rect_width rect_height]; unfold py.float_max;
    rewrite <- ?inject_Z_opp; try (change 0%Q with (inject_Z 0));
    rewrite <- Zle_Qle; lia.
Qed.

Lemma Rectangle_polygon_roundtrip_witness :
  let r := mk_Rectangle (inject_Z 5) (inject_Z 5) (inject_Z 10) (inject_Z 4) in
  convert (fun _ => None) (fun _ _ _ => None) (RRectangle r) POLYGON
  = Ok (RPolygon (mk_Polygon 4
          [ (inject_Z 5, inject_Z 5);
            (inject_Z 5 + inject_Z 10, inject_Z 5);
            (inject_Z 5 + inject_Z 10, inject_Z 5 + inject_Z 4);
            (inject_Z 5, inject_Z 5 + inject_Z 4) ]%Q))
  /\ exists r', Rectangle_via_polygon (fun _ => None) (fun _ _ _ => None) r
                = Ok (RRectangle r')
       /\ Rectangle_eq r' r.
Proof.
  apply (Rectangle_polygon_roundtrip (fun _ => None) (fun _ _ _ => None) 5 5 10 4);
    vm_compute; intuition discriminate.
Defined.

(** ** Copies *)

Lemma alloc_spec (h h' : heap) (o : obj) (a' : loc) :
  alloc h o = (a', h') ->
  h !! a' = None /\ h' !! a' = Some o /\ forall b, b <> a' -> h' !! b = h !! b.
Proof.
  unfold alloc. intros [= <- <-]. repeat split.
  - apply not_elem_of_dom, is_fresh.
  - apply lookup_insert_eq.
  - intros b Hb. by apply lookup_insert_ne.
Qed.

Lemma copy_obj_alloc (h : heap) (self : loc) (v : Region) :
  load h self = Some v ->
  exists o, h !! self = Some o /\ copy_obj h self = Some (alloc h o).
Proof.
  unfold load, copy_obj, Special_copy_obj, Rectangle_copy_obj,
    Polygon_copy_obj, Mask_copy_obj, copy_copy.
  destruct (h !! self) as [o|] eqn:Hs; [|discriminate].
  destruct o; try discriminate; intros _; eexists; split; reflexivity.
Qed.

(** A well-formed instance reads the same after an allocation. *)
Lemma load_alloc (h h' : heap) (o : obj) (a a' : loc) (v : Region) :
  alloc h o = (a', h') -> load h a = Some v -> load h' a = Some v.
Proof.
  intros E Hv. apply alloc_spec in E as (Hfresh & Hnew & Hold).
  unfold load in *.
  assert (a <> a') as Hne by (intros ->; by rewrite Hfresh in Hv).
  rewrite (Hold a Hne).
  destruct (h !! a) as [[| | | |n l|l off]|]; try done.
  - destruct (h !! l) as [ol|] eqn:Hl; [|discriminate].
    rewrite Hold, Hl; [done|]. intros ->. congruence.
  - destruct (h !! l) as [ol|] eqn:Hl; [|discriminate].
    rewrite Hold, Hl; [done|]. intros ->. congruence.
Qed.

Lemma load_alloc_same (h h' : heap) (o : obj) (a a' : loc) (v : Region) :
  alloc h o = (a', h') -> h !! a = Some o -> load h a = Some v ->
  load h' a' = Some v.
Proof.
  intros E Ho Hv. apply alloc_spec in E as (Hfresh & Hnew & Hold).
  unfold load in *. rewrite Hnew. rewrite Ho in Hv.
  destruct o as [| | | |n l|l off]; try done.
  - destruct (h !! l) as [ol|] eqn:Hl; [|discriminate].
    rewrite Hold, Hl; [done|]. intros ->. congruence.
  - destruct (h !! l) as [ol|] eqn:Hl; [|discriminate].
    rewrite Hold, Hl; [done|]. intros ->. congruence.
Qed.

Lemma storage_ext (h h' : heap) (a a' : loc) :
  h' !! a' = h !! a -> storage h' a' = storage h a.
Proof. unfold storage. by intros ->. Qed.

(** Writing a vertex through the copy of a polygon is seen by the
    original, whatever the heap. *)
Lemma Polygon_copy_write_visible (h : heap) (self l : loc) (n i : nat)
    (pts : list point) (pt : point) :
  h !! self = Some (OPolygon n l) -> h !! l = Some (OList pts) ->
  (i < length pts)%nat ->
  write_copy_read_original h self i pt
  = Some (RPolygon (mk_Polygon n (<[i := pt]> pts))).
Proof.
  intros Hs Hl Hi.
  unfold write_copy_read_original, copy_obj, Polygon_copy_obj, copy_copy.
  rewrite Hs. destruct (alloc h (OPolygon n l)) as [a' h1] eqn:E.
  apply alloc_spec in E as (Hfresh & Hnew & Hold).
  assert (l <> a') as Hla by (intros ->; congruence).
  assert (self <> a') as Hsa by (intros ->; congruence).
  assert (self <> l) as Hsl by (intros ->; congruence).
  unfold points_ref, list_setitem. rewrite Hnew, (Hold l Hla), Hl.
  rewrite bool_decide_eq_true_2 by exact Hi.
  unfold load. rewrite lookup_insert_ne by done.
  rewrite (Hold self Hsa), Hs, lookup_insert_eq. reflexivity.
Qed.

(** C3, as stated, fails: the copy of a polygon holds the same point list
    as the original, so assigning vertex 0 through the copy changes the
    vertex the original reads. *)
Lemma Polygon_copy_shares_points :
  let h0 : heap :=
    <[2%positive := OPolygon 2 1%positive]>
      {[1%positive := OList [(0, 0); (1, 1)]%Q]} in
  load h0 2%positive
  = Some (RPolygon (mk_Polygon 2 [(0, 0); (1, 1)]%Q))
  /\ write_copy_read_original h0 2%positive 0 (5, 5)%Q
     = Some (RPolygon (mk_Polygon 2 [(5, 5); (1, 1)]%Q)).
Proof. split; vm_compute; reflexivity. Qed.

(** The bitmap of a mask is shared with its copy in the same way. *)
Example Mask_copy_shares_array :
  let h0 : heap :=
    <[2%positive := OMask 1%positive (3, 4)]>
      {[1%positive := OArray (np.mk_ndarray 2 [[0; 1]; [1; 1]])]} in
  load h0 2%positive
  = Some (RMask (mk_Mask (np.mk_ndarray 2 [[0; 1]; [1; 1]]) (3, 4)))
  /\ write_mask_copy_read_original h0 2%positive 0 0 1
     = Some (RMask (mk_Mask (np.mk_ndarray 2 [[1; 1]; [1; 1]]) (3, 4))).
Proof. split; vm_compute; reflexivity. Qed.

(** C3 (amended): for every region variant, [copy()] returns a new
    instance, at an address not in use before and so distinct from the
    original, with identical field values; every object that existed
    keeps its contents.  The copy refers to the same mutable storage as
    the original: none for [Special] and [Rectangle], and for [Polygon]
    and [Mask] the very point list or bitmap array of the original. *)
Theorem copy_obj_shallow (h : heap) (self : loc) (v : Region) :
  load h self = Some v ->
  exists a' h',
    copy_obj h self = Some (a', h')
    /\ h !! a' = None /\ a' <> self
    /\ (forall b, b <> a' -> h' !! b = h !! b)
    /\ load h' a' = Some v /\ load h' self = Some v
    /\ storage h' a' = storage h' self
    /\ match v with
       | RSpecial _ | RRectangle _ => storage h' a' = ∅
       | RPolygon _ => exists l, points_ref h' a' = Some l
                         /\ points_ref h' self = Some l
       | RMask _ => exists l, mask_ref h' a' = Some l /\ mask_ref h' self = Some l
       end.
Proof.
  intros Hv. destruct (copy_obj_alloc h self v Hv) as (o & Ho & Hc).
  destruct (alloc h o) as [a' h'] eqn:E. exists a', h'.
  pose proof (alloc_spec _ _ _ _ E) as (Hfresh & Hnew & Hold).
  assert (a' <> self) as Hne by (intros ->; congruence).
  assert (h' !! self = Some o) as Hself by (rewrite Hold; [done | congruence]).
  split; [exact Hc|]. split; [exact Hfresh|]. split; [exact Hne|].
  split; [exact Hold|].
  split; [by eapply load_alloc_same|]. split; [by eapply load_alloc|].
  split; [apply storage_ext; congruence|].
  unfold load in Hv. rewrite Ho in Hv.
  unfold storage, points_ref, mask_ref. rewrite Hnew, Hself.
  destruct o as [| | | |n l|l off]; try discriminate.
  - by injection Hv as <-.
  - by injection Hv as <-.
  - destruct (h !! l) as [[]|]; try discriminate. injection Hv as <-. eauto.
  - destruct (h !! l) as [[]|]; try discriminate. injection Hv as <-. eauto.
Qed.

Lemma copy_obj_shallow_witness :
  let h : heap :=
    <[2%positive := OMask 1%positive (3, 4)]>
      {[1%positive := OArray (np.mk_ndarray 2 [[0; 1]; [1; 1]])]} in
  let v := RMask (mk_Mask (np.mk_ndarray 2 [[0; 1]; [1; 1]]) (3, 4)) in
  exists a' h',
    copy_obj h 2%positive = Some (a', h')
    /\ h !! a' = None /\ a' <> 2%positive
    /\ (forall b, b <> a' -> h' !! b = h !! b)
    /\ load h' a' = Some v /\ load h' 2%positive = Some v
    /\ storage h' a' = storage h' 2%positive
    /\ exists l, mask_ref h' a' = Some l /\ mask_ref h' 2%positive = Some l.
Proof.
  apply (copy_obj_shallow
           (<[2%positive := OMask 1%positive (3, 4)]>
              {[1%positive := OArray (np.mk_ndarray 2 [[0; 1]; [1; 1]])]})
           2%positive
           (RMask (mk_Mask (np.mk_ndarray 2 [[0; 1]; [1; 1]]) (3, 4)))).
  reflexivity.
Defined.

(** ** Rectangle helpers *)

(** The centre is the midpoint of the top-left and bottom-right corners. *)
Lemma Rectangle_center_midpoint (r : Rectangle) :
  point_eq (Rectangle_center r)
    ((rect_x r + (rect_x r + rect_width r)) / 2,
     (rect_y r + (rect_y r + rect_height r)) / 2)%Q.
Proof. unfold point_eq, Rectangle_center. simpl. split; field. Qed.

(** C10: for every [Rectangle], [center()] returns the point
    (x + width/2, y + height/2), and [resize(factor)] returns a new
    [Rectangle] with fields (x*factor, y*factor, width*factor,
    height*factor) while the original instance, like every other object,
    keeps its fields. *)
Theorem Rectangle_center_resize (h : heap) (self : loc) (r : Rectangle)
    (factor : Q) :
  h !! self = Some (ORectangle r) ->
  Rectangle_center r
  = (rect_x r + rect_width r / 2, rect_y r + rect_height r / 2)%Q
  /\ exists a' h',
       Rectangle_resize_obj h self factor = Some (a', h')
       /\ h !! a' = None
       /\ h' !! a'
          = Some (ORectangle
                    (mk_Rectangle (rect_x r * factor) (rect_y r * factor)
                       (rect_width r * factor) (rect_height r * factor)))
       /\ h' !! self = Some (ORectangle r)
       /\ forall b, b <> a' -> h' !! b = h !! b.
Proof.
  intros Hs. split; [reflexivity|].
  unfold Rectangle_resize_obj. rewrite Hs.
  destruct (alloc h (ORectangle (Rectangle_resize r factor))) as [a' h'] eqn:E.
  exists a', h'. apply alloc_spec in E as (Hfresh & Hnew & Hold).
  split; [reflexivity|]. split; [exact Hfresh|]. split; [exact Hnew|].
  split; [|exact Hold]. rewrite Hold; [exact Hs|]. intros ->. congruence.
Qed.

Lemma Rectangle_center_resize_witness :
  let r := mk_Rectangle 1 2 3 4 in
  let h : heap := {[1%positive := ORectangle r]} in
  Rectangle_center r
  = (rect_x r + rect_width r / 2, rect_y r + rect_height r / 2)%Q
  /\ exists a' h',
       Rectangle_resize_obj h 1%positive (1 # 2) = Some (a', h')
       /\ h !! a' = None
       /\ h' !! a'
          = Some (ORectangle
                    (mk_Rectangle (rect_x r * (1 # 2)) (rect_y r * (1 # 2))
                       (rect_width r * (1 # 2)) (rect_height r * (1 # 2))))
       /\ h' !! 1%positive = Some (ORectangle r)
       /\ forall b, b <> a' -> h' !! b = h !! b.
Proof.
  apply (Rectangle_center_resize {[1%positive := ORectangle (mk_Rectangle 1 2 3 4)]}
           1%positive (mk_Rectangle 1 2 3 4) (1 # 2)).
  reflexivity.
Defined.

(** ** Polygon to mask *)













(** A coordinate beyond 32 bits wraps in [astype(np.int32)]: the vertex
    (2^31, 0) is rasterized as if it were at -2^31. *)
Example Polygon_convert_mask_wraps :
  Polygon_convert (fun _ => None) (fun img _ _ => Some img)
    (mk_Polygon 1 [(inject_Z (2 ^ 31), 0%Q)]) MASK
  = Raise ValueError.
Proof. vm_compute. reflexivity. Qed.

Section PolygonToMask.

Variable mask2bbox : np.ndarray -> option (Z * Z * Z * Z).
Variable fillConvexPoly : np.ndarray -> list (Z * Z) -> Z -> option np.ndarray.



End PolygonToMask.



Example Polygon_convert_mask_example :
  Polygon_convert (fun _ => None) (fun img _ c => Some (np.map (fun _ => c) img))
    (mk_Polygon 3 [(-3 # 2, 1 # 2); (5 # 2, 1); (2, 7 # 2)]%Q) MASK
  = Ok (RMask (mk_Mask (constant_bitmap 1 5 3) (0, 0))).
Proof. vm_compute. reflexivity. Qed.

(** * Further properties *)

(** ** The bounding rectangle of a polygon *)

Lemma fold_bounds_step (pts : list point) (t b l r : Q) :
  fold_left bounds_step pts (t, b, l, r)
  = (fold_left py.min (List.map snd pts) t,
     fold_left py.max (List.map snd pts) b,
     fold_left py.min (List.map fst pts) l,
     fold_left py.max (List.map fst pts) r).
Proof.
  revert t b l r. induction pts as [|pt pts IH]; intros t b l r; [reflexivity|].
  cbn [fold_left List.map bounds_step]. apply IH.
Qed.

Lemma py_min_le (a b : Q) : (py.min a b <= a)%Q /\ (py.min a b <= b)%Q.
Proof.
  unfold py.min. destruct (b ?= a)%Q eqn:E.
  - apply (proj2 (Qeq_alt _ _)) in E. split; lra.
  - apply (proj2 (Qlt_alt _ _)) in E. split; lra.
  - apply (proj2 (Qgt_alt _ _)) in E. split; lra.
Qed.

Lemma py_max_ge (a b : Q) : (a <= py.max a b)%Q /\ (b <= py.max a b)%Q.
Proof.
  unfold py.max. destruct (b ?= a)%Q eqn:E.
  - apply (proj2 (Qeq_alt _ _)) in E. split; lra.
  - apply (proj2 (Qlt_alt _ _)) in E. split; lra.
  - apply (proj2 (Qgt_alt _ _)) in E. split; lra.
Qed.

Lemma py_min_cases (a b : Q) : py.min a b = a \/ py.min a b = b.
Proof. unfold py.min. destruct (b ?= a)%Q; auto. Qed.

Lemma py_max_cases (a b : Q) : py.max a b = a \/ py.max a b = b.
Proof. unfold py.max. destruct (b ?= a)%Q; auto. Qed.

Lemma fold_min_spec (l : list Q) (acc : Q) :
  (fold_left py.min l acc = acc \/ In (fold_left py.min l acc) l)
  /\ (fold_left py.min l acc <= acc)%Q
  /\ Forall (fun v => fold_left py.min l acc <= v)%Q l.
Proof.
  revert acc. induction l as [|v l IH]; intros acc.
  - simpl. repeat split; [by left | lra | constructor].
  - cbn [fold_left]. destruct (IH (py.min acc v)) as (Hin & Hle & Hall).
    destruct (py_min_le acc v) as [Ha Hv]. repeat split.
    + destruct Hin as [Hin|Hin]; [|right; by right].
      rewrite Hin. destruct (py_min_cases acc v) as [->| ->];
        [by left | right; by left].
    + lra.
    + constructor; [lra | exact Hall].
Qed.

Lemma fold_max_spec (l : list Q) (acc : Q) :
  (fold_left py.max l acc = acc \/ In (fold_left py.max l acc) l)
  /\ (acc <= fold_left py.max l acc)%Q
  /\ Forall (fun v => v <= fold_left py.max l acc)%Q l.
Proof.
  revert acc. induction l as [|v l IH]; intros acc.
  - simpl. repeat split; [by left | lra | constructor].
  - cbn [fold_left]. destruct (IH (py.max acc v)) as (Hin & Hle & Hall).
    destruct (py_max_ge acc v) as [Ha Hv]. repeat split.
    + destruct Hin as [Hin|Hin]; [|right; by right].
      rewrite Hin. destruct (py_max_cases acc v) as [->| ->];
        [by left | right; by left].
    + lra.
    + constructor; [lra | exact Hall].
Qed.

(** Started from [sys.float_info.max], the running minimum ends on an
    element as soon as the first element is below that bound. *)
Lemma fold_min_from_float_max (v : Q) (l : list Q) :
  (v < py.float_max)%Q ->
  In (fold_left py.min (v :: l) py.float_max) (v :: l)
  /\ Forall (fun u => fold_left py.min (v :: l) py.float_max <= u)%Q (v :: l).
Proof.
  intros Hv. cbn [fold_left].
  assert (py.min py.float_max v = v) as ->.
  { unfold py.min. by rewrite (proj1 (Qlt_alt _ _) Hv). }
  destruct (fold_min_spec l v) as (Hin & Hle & Hall). split.
  - destruct Hin as [-> | Hin]; [by left | by right].
  - by constructor.
Qed.

Lemma fold_max_from_float_min (v : Q) (l : list Q) :
  (- py.float_max < v)%Q ->
  In (fold_left py.max (v :: l) (- py.float_max)%Q) (v :: l)
  /\ Forall (fun u => u <= fold_left py.max (v :: l) (- py.float_max))%Q (v :: l).
Proof.
  intros Hv. cbn [fold_left].
  assert (py.max (- py.float_max) v = v) as ->.
  { unfold py.max. by rewrite (proj1 (Qgt_alt _ _) Hv). }
  destruct (fold_max_spec l v) as (Hin & Hle & Hall). split.
  - destruct Hin as [-> | Hin]; [by left | by right].
  - by constructor.
Qed.

(** X1: for a polygon whose first vertex has both coordinates strictly
    between -[sys.float_info.max] and [sys.float_info.max],
    [convert(RECTANGLE)] returns [Rectangle(l, t, r - l, b - t)] where
    l and r are x coordinates of vertices, t and b are y coordinates of
    vertices, and every vertex satisfies l <= x <= r and t <= y <= b:
    the tight axis-aligned bounding box. *)
Theorem Polygon_convert_rectangle_encloses
    (mask2bbox : np.ndarray -> option (Z * Z * Z * Z))
    (fillConvexPoly : np.ndarray -> list (Z * Z) -> Z -> option np.ndarray)
    (p : Polygon) (pt0 : point) (rest : list point) :
  points p = pt0 :: rest ->
  (- py.float_max < fst pt0 < py.float_max)%Q ->
  (- py.float_max < snd pt0 < py.float_max)%Q ->
  exists l r t b : Q,
    Polygon_convert mask2bbox fillConvexPoly p RECTANGLE
    = Ok (RRectangle (mk_Rectangle l t (r - l) (b - t)))
    /\ In l (List.map fst (points p)) /\ In r (List.map fst (points p))
    /\ In t (List.map snd (points p)) /\ In b (List.map snd (points p))
    /\ Forall (fun pt => (l <= fst pt <= r)%Q /\ (t <= snd pt <= b)%Q) (points p).
Proof.
  intros Hpts [Hx0 Hx1] [Hy0 Hy1].
  unfold Polygon_convert, Polygon_bounds, bounds_init.
  rewrite fold_bounds_step, Hpts. cbn [List.map].
  destruct (fold_min_from_float_max (fst pt0) (List.map fst rest) Hx1) as [Hl Hlall].
  destruct (fold_max_from_float_min (fst pt0) (List.map fst rest) Hx0) as [Hr Hrall].
  destruct (fold_min_from_float_max (snd pt0) (List.map snd rest) Hy1) as [Ht Htall].
  destruct (fold_max_from_float_min (snd pt0) (List.map snd rest) Hy0) as [Hb Hball].
  do 4 eexists. split; [reflexivity|]. repeat (split; [assumption|]).
  change (fst pt0 :: List.map fst rest) with (List.map fst (pt0 :: rest)) in *.
  change (snd pt0 :: List.map snd rest) with (List.map snd (pt0 :: rest)) in *.
  rewrite List.Forall_map in Hlall, Hrall, Htall, Hball.
  rewrite Forall_forall in Hlall. rewrite Forall_forall in Hrall.
  rewrite Forall_forall in Htall. rewrite Forall_forall in Hball.
  apply Forall_forall. intros pt Hpt.
  specialize (Hlall pt Hpt). specialize (Hrall pt Hpt).
  specialize (Htall pt Hpt). specialize (Hball pt Hpt). simpl in *. auto.
Qed.

Lemma Polygon_convert_rectangle_encloses_witness :
  let p := mk_Polygon 3 [(3, 1); (-2, 5 # 2); (4, -7)]%Q in
  exists l r t b : Q,
    Polygon_convert (fun _ => None) (fun _ _ _ => None) p RECTANGLE
    = Ok (RRectangle (mk_Rectangle l t (r - l) (b - t)))
    /\ In l (List.map fst (points p)) /\ In r (List.map fst (points p))
    /\ In t (List.map snd (points p)) /\ In b (List.map snd (points p))
    /\ Forall (fun pt => (l <= fst pt <= r)%Q /\ (t <= snd pt <= b)%Q) (points p).
Proof.
  apply (Polygon_convert_rectangle_encloses (fun _ => None) (fun _ _ _ => None)
           (mk_Polygon 3 [(3, 1); (-2, 5 # 2); (4, -7)]%Q)
           (3, 1)%Q [(-2, 5 # 2); (4, -7)]%Q).
  - reflexivity.
  - split; vm_compute; reflexivity.
  - split; vm_compute; reflexivity.
Defined.

(** ** Compositing a mask onto a canvas *)





(** ** What [convert] returns *)

(** X4: whenever [convert] returns, the region it returns is of the
    requested type, whatever the source variant; and converting a region
    to its own type returns a region with the same field values. *)
Theorem convert_returns_requested_type
    (mask2bbox : np.ndarray -> option (Z * Z * Z * Z))
    (fillConvexPoly : np.ndarray -> list (Z * Z) -> Z -> option np.ndarray)
    (r : Region) (rtype : RegionType) :
  (forall r', convert mask2bbox fillConvexPoly r rtype = Ok r' ->
              Region_type r' = rtype)
  /\ convert mask2bbox fillConvexPoly r (Region_type r) = Ok r.
Proof.
  split.
  - intros r' H. destruct r as [s|rc|p|m], rtype; simpl in H;
      try discriminate H; try (by injection H as <-).
    + destruct (np.ones _ _); simpl in H; [|discriminate]. by injection H as <-.
    + destruct (Polygon_to_mask _ _ _); simpl in H; [|discriminate].
      by injection H as <-.
    + destruct (mask2bbox (mask m)) as [[[[b0 b1] b2] b3]|]; simpl in H;
        [|discriminate]. by injection H as <-.
    + destruct (mask2bbox (mask m)) as [[[[b0 b1] b2] b3]|]; simpl in H;
        [|discriminate]. by injection H as <-.
  - by destruct r as [[c]| | |].
Qed.

Lemma convert_returns_requested_type_witness :
  let r := RRectangle (mk_Rectangle 1 2 3 4) in
  (forall r', convert (fun _ => None) (fun _ _ _ => None) r MASK = Ok r' ->
              Region_type r' = MASK)
  /\ convert (fun _ => None) (fun _ _ _ => None) r (Region_type r) = Ok r.
Proof.
  apply (convert_returns_requested_type (fun _ => None) (fun _ _ _ => None)
           (RRectangle (mk_Rectangle 1 2 3 4)) MASK).
Defined.

(** ** Rasterizing a rectangle *)






(** ** Optimizing a mask at construction *)

Lemma wf_map (f : Z -> Z) (a : np.ndarray) : np.wf a -> np.wf (np.map f a).
Proof.
  unfold np.wf, np.map. simpl. intros H. apply List.Forall_map.
  eapply Forall_impl; [exact H|]. intros r Hr. simpl in Hr.
  by rewrite List.length_map.
Qed.

(** X7: constructing a mask with [optimize=True], when [mask2bbox]
    reports a box (b0, b1, b2, b3) that lies within the array and
    outside of which the normalized bitmap is 0, keeps the half-open
    crop rows b1..b3, columns b0..b2 and sets the offset to (b0, b1),
    whatever offset was passed in: the passed offset is discarded.  The
    cropped mask laid at its new offset shows, at every row and column,
    the entry the normalized full bitmap has there. *)
Theorem Mask_init_optimize_crops
    (mask2bbox : np.ndarray -> option (Z * Z * Z * Z))
    (input : np.ndarray) (off : Z * Z) (b0 b1 b2 b3 : Z) :
  let n := np.set_positive_to_one (np.astype_uint8 input) in
  np.wf input ->
  mask2bbox n = Some (b0, b1, b2, b3) ->
  0 <= b0 <= b2 -> b2 <= np.shape1 input ->
  0 <= b1 <= b3 -> b3 <= np.shape0 input ->
  (forall i j : nat,
      ~ (b1 <= Z.of_nat i < b3 /\ b0 <= Z.of_nat j < b2) -> np.entry n i j = 0) ->
  exists m,
    Mask_init mask2bbox input off true = Ok m
    /\ offset m = (b0, b1)
    /\ np.shape0 (mask m) = b3 - b1 /\ np.shape1 (mask m) = b2 - b0
    /\ forall i j : nat, composited m i j = np.entry n i j.
Proof.
  intros n Hwf Hbox Hx0 Hx1 Hy0 Hy1 Hzero.
  assert (np.wf n) as Hwn by (unfold n; by do 2 apply wf_map).
  assert (np.shape0 n = np.shape0 input /\ np.shape1 n = np.shape1 input)
    as [Hn0 Hn1].
  { unfold n, np.shape0, np.shape1. simpl. by rewrite !List.length_map. }
  unfold Mask_init, Mask_optimize. cbn [mask]. fold n. rewrite Hbox.
  cbn [external bind]. eexists. split; [reflexivity|].
  destruct (get_slice_shape n b1 b3 b0 b2 Hwn) as (_ & Hr & Hc).
  rewrite Hn0, !slice_len_id in Hr by lia.
  rewrite Hn1, !slice_len_id in Hc by lia.
  split; [reflexivity|]. cbn [mask].
  split; [unfold np.shape0; lia|]. split; [unfold np.shape1; lia|].
  intros i j. unfold composited. cbn [mask offset fst snd].
  rewrite entry_get_slice by exact Hwn.
  rewrite Hn0, Hn1, !slice_len_id, !slice_index_id by lia.
  bool_cases; try (symmetry; apply Hzero; lia).
  f_equal; lia.
Qed.

Lemma Mask_init_optimize_crops_witness :
  let input := np.mk_ndarray 3 [[0; 0; 0]; [0; 5; 0]] in
  let bbox := fun _ : np.ndarray => Some (1, 1, 2, 2) in
  exists m,
    Mask_init bbox input (7, 9) true = Ok m
    /\ offset m = (1, 1)
    /\ np.shape0 (mask m) = 2 - 1 /\ np.shape1 (mask m) = 2 - 1
    /\ forall i j : nat,
         composited m i j
         = np.entry (np.set_positive_to_one (np.astype_uint8 input)) i j.
Proof.
  apply (Mask_init_optimize_crops (fun _ => Some (1, 1, 2, 2))
           (np.mk_ndarray 3 [[0; 0; 0]; [0; 5; 0]]) (7, 9) 1 1 2 2).
  - repeat constructor.
  - reflexivity.
  - lia.
  - vm_compute. discriminate.
  - lia.
  - vm_compute. discriminate.
  - intros i j H.
    destruct i as [|[|i]]; destruct j as [|[|[|j]]]; try reflexivity.
    exfalso. apply H. lia.
Defined.

(** ** Resizing *)

(** X8: for a rectangle with integer fields and an integer factor,
    resizing the rectangle and then converting it to a polygon gives the
    same four vertices, in the same order, as converting it to a polygon
    and then resizing the polygon; neither path fails. *)
Theorem Rectangle_resize_convert_commute
    (mask2bbox : np.ndarray -> option (Z * Z * Z * Z))
    (fillConvexPoly : np.ndarray -> list (Z * Z) -> Z -> option np.ndarray)
    (x y w h k : Z) :
  let r := mk_Rectangle (inject_Z x) (inject_Z y) (inject_Z w) (inject_Z h) in
  exists p p1 p2,
    convert mask2bbox fillConvexPoly (RRectangle r) POLYGON = Ok (RPolygon p)
    /\ Polygon_resize p (inject_Z k) = Ok p1
    /\ convert mask2bbox fillConvexPoly
         (RRectangle (Rectangle_resize r (inject_Z k))) POLYGON
       = Ok (RPolygon p2)
    /\ count p1 = 4%nat /\ count p2 = 4%nat
    /\ points_eq (points p1) (points p2).
Proof.
  intros r. do 3 eexists. split; [reflexivity|]. split; [reflexivity|].
  split; [reflexivity|]. split; [reflexivity|]. split; [reflexivity|].
  unfold points_eq, point_eq, Polygon_resize, Rectangle_corners,
    Rectangle_resize, Rectangle_init, r.
  cbn [points List.map fst snd rect_x rect_y rect_width rect_height].
  constructor; [split; cbn [fst snd]; ring|].
  constructor; [split; cbn [fst snd]; ring|].
  constructor; [split; cbn [fst snd]; ring|].
  constructor; [split; cbn [fst snd]; ring|].
  constructor.
Qed.

Lemma fold_min_proper (l : list Q) (a a' : Q) :
  (a == a')%Q -> (fold_left py.min l a == fold_left py.min l a')%Q.
Proof.
  revert a a'. induction l as [|v l IH]; intros a a' H; [exact H|].
  cbn [fold_left]. apply IH. by rewrite H.
Qed.

Lemma fold_max_proper (l : list Q) (a a' : Q) :
  (a == a')%Q -> (fold_left py.max l a == fold_left py.max l a')%Q.
Proof.
  revert a a'. induction l as [|v l IH]; intros a a' H; [exact H|].
  cbn [fold_left]. apply IH. by rewrite H.
Qed.

Lemma py_min_scale (a b f : Q) :
  (0 <= f)%Q -> (py.min (a * f) (b * f) == py.min a b * f)%Q.
Proof.
  intros Hf. destruct (Qlt_le_dec b a) as [Hlt|Hle].
  - assert (py.min a b == b)%Q as E by (apply py_min_r; lra).
    rewrite E. apply py_min_r. apply Qmult_le_compat_r; lra.
  - assert (py.min a b == a)%Q as E by (by apply py_min_l).
    rewrite E. apply py_min_l. by apply Qmult_le_compat_r.
Qed.

Lemma py_max_scale (a b f : Q) :
  (0 <= f)%Q -> (py.max (a * f) (b * f) == py.max a b * f)%Q.
Proof.
  intros Hf. destruct (Qlt_le_dec a b) as [Hlt|Hle].
  - assert (py.max a b == b)%Q as E by (apply py_max_r; lra).
    rewrite E. apply py_max_r. apply Qmult_le_compat_r; lra.
  - assert (py.max a b == a)%Q as E by (by apply py_max_l).
    rewrite E. apply py_max_l. by apply Qmult_le_compat_r.
Qed.

Lemma fold_min_scale (l : list Q) (acc f : Q) :
  (0 <= f)%Q ->
  (fold_left py.min (List.map (fun v => v * f) l) (acc * f)
   == fold_left py.min l acc * f)%Q.
Proof.
  intros Hf. revert acc. induction l as [|v l IH]; intros acc; [reflexivity|].
  cbn [fold_left List.map]. rewrite <- IH. apply fold_min_proper.
  by apply py_min_scale.
Qed.

Lemma fold_max_scale (l : list Q) (acc f : Q) :
  (0 <= f)%Q ->
  (fold_left py.max (List.map (fun v => v * f) l) (acc * f)
   == fold_left py.max l acc * f)%Q.
Proof.
  intros Hf. revert acc. induction l as [|v l IH]; intros acc; [reflexivity|].
  cbn [fold_left List.map]. rewrite <- IH. apply fold_max_proper.
  by apply py_max_scale.
Qed.

Lemma py_min_float_max (v : Q) : (v < py.float_max)%Q -> py.min py.float_max v = v.
Proof. intros Hv. unfold py.min. by rewrite (proj1 (Qlt_alt _ _) Hv). Qed.

Lemma py_max_float_min (v : Q) :
  (- py.float_max < v)%Q -> py.max (- py.float_max) v = v.
Proof. intros Hv. unfold py.max. by rewrite (proj1 (Qgt_alt _ _) Hv). Qed.

Lemma Polygon_bounds_scaled (x0 y0 f : Q) (pts : list point) :
  (0 <= f)%Q ->
  (- py.float_max < x0 < py.float_max)%Q ->
  (- py.float_max < y0 < py.float_max)%Q ->
  (- py.float_max < x0 * f < py.float_max)%Q ->
  (- py.float_max < y0 * f < py.float_max)%Q ->
  Rectangle_eq
    (Polygon_bounds
       (mk_Polygon (S (length pts))
          (List.map (fun p => (fst p * f, snd p * f)%Q) ((x0, y0) :: pts))))
    (Rectangle_resize
       (Polygon_bounds (mk_Polygon (S (length pts)) ((x0, y0) :: pts))) f).
Proof.
  intros Hf [Hx0 Hx1] [Hy0 Hy1] [Hfx0 Hfx1] [Hfy0 Hfy1].
  unfold Polygon_bounds, bounds_init, Rectangle_resize, Rectangle_init, Rectangle_eq.
  cbn [points]. rewrite !fold_bounds_step.
  cbn [List.map fst snd fold_left rect_x rect_y rect_width rect_height].
  rewrite !py_min_float_max, !py_max_float_min by assumption.
  rewrite !List.map_map. cbn [fst snd].
  rewrite <- !(List.map_map fst (fun v => (v * f)%Q)).
  rewrite <- !(List.map_map snd (fun v => (v * f)%Q)).
  pose proof (fold_min_scale (List.map fst pts) x0 f Hf) as El.
  pose proof (fold_max_scale (List.map fst pts) x0 f Hf) as Er.
  pose proof (fold_min_scale (List.map snd pts) y0 f Hf) as Et.
  pose proof (fold_max_scale (List.map snd pts) y0 f Hf) as Eb.
  repeat split.
  - exact El.
  - exact Et.
  - rewrite El, Er. ring.
  - rewrite Et, Eb. ring.
Qed.

(** X9: [Polygon.resize] applied to a constructed polygon never fails
    and keeps the number of vertices.  For integer coordinates and an
    integer factor that is not negative, with the first vertex strictly
    inside the finite float range before and after scaling, the bounding
    rectangle of the resized polygon is the resized bounding rectangle
    of the polygon: [p.resize(k).convert(RECTANGLE)] and
    [p.convert(RECTANGLE).resize(k)] have the same x, y, width and
    height. *)
Theorem Polygon_resize_bounds
    (mask2bbox : np.ndarray -> option (Z * Z * Z * Z))
    (fillConvexPoly : np.ndarray -> list (Z * Z) -> Z -> option np.ndarray)
    (z0 : Z * Z) (zs : list (Z * Z)) (k : Z) (p : Polygon) :
  Polygon_init (List.map int_point (z0 :: zs)) = Ok p ->
  0 <= k ->
  - py.float_max_int < fst z0 < py.float_max_int ->
  - py.float_max_int < snd z0 < py.float_max_int ->
  - py.float_max_int < fst z0 * k < py.float_max_int ->
  - py.float_max_int < snd z0 * k < py.float_max_int ->
  exists p' r r',
    Polygon_resize p (inject_Z k) = Ok p'
    /\ count p' = count p
    /\ Polygon_convert mask2bbox fillConvexPoly p RECTANGLE = Ok (RRectangle r)
    /\ Polygon_convert mask2bbox fillConvexPoly p' RECTANGLE = Ok (RRectangle r')
    /\ Rectangle_eq r' (Rectangle_resize r (inject_Z k)).
Proof.
  intros Hinit Hk Hx Hy Hkx Hky. cbn [List.map Polygon_init] in Hinit.
  injection Hinit as <-. unfold Polygon_resize. cbn [points List.map Polygon_init].
  do 3 eexists. split; [reflexivity|].
  split; [cbn [count length]; by rewrite List.length_map|].
  split; [reflexivity|]. split; [reflexivity|].
  cbn [length]. rewrite List.length_map.
  apply (Polygon_bounds_scaled (inject_Z (fst z0)) (inject_Z (snd z0)) (inject_Z k)
           (List.map int_point zs)).
  - change 0%Q with (inject_Z 0). by rewrite <- Zle_Qle.
  - unfold py.float_max. rewrite <- inject_Z_opp, <- !Zlt_Qlt. lia.
  - unfold py.float_max. rewrite <- inject_Z_opp, <- !Zlt_Qlt. lia.
  - unfold py.float_max. rewrite <- inject_Z_mult, <- inject_Z_opp, <- !Zlt_Qlt. lia.
  - unfold py.float_max. rewrite <- inject_Z_mult, <- inject_Z_opp, <- !Zlt_Qlt. lia.
Qed.

Lemma Polygon_resize_bounds_witness :
  let p := mk_Polygon 3 (List.map int_point [(3, 1); (-2, 5); (4, -7)]) in
  exists p' r r',
    Polygon_resize p (inject_Z 2) = Ok p'
    /\ count p' = count p
    /\ Polygon_convert (fun _ => None) (fun _ _ _ => None) p RECTANGLE
       = Ok (RRectangle r)
    /\ Polygon_convert (fun _ => None) (fun _ _ _ => None) p' RECTANGLE
       = Ok (RRectangle r')
    /\ Rectangle_eq r' (Rectangle_resize r (inject_Z 2)).
Proof.
  apply (Polygon_resize_bounds (fun _ => None) (fun _ _ _ => None)
           (3, 1) [(-2, 5); (4, -7)] 2).
  - reflexivity.
  - lia.
  - vm_compute. split; reflexivity.
  - vm_compute. split; reflexivity.
  - vm_compute. split; reflexivity.
  - vm_compute. split; reflexivity.
Defined.

(** ** Drawing *)

(** X10: drawing a rectangle makes the same call on the handle, with the
    same vertices, width and color, as drawing the polygon that
    [convert(POLYGON)] returns for it, whatever arguments are supplied
    and whatever was drawn before. *)
Theorem Rectangle_draw_as_polygon
    (mask2bbox : np.ndarray -> option (Z * Z * Z * Z))
    (fillConvexPoly : np.ndarray -> list (Z * Z) -> Z -> option np.ndarray)
    (r : Rectangle) (handle : DrawHandle) (args : draw_args) :
  exists p,
    convert mask2bbox fillConvexPoly (RRectangle r) POLYGON = Ok (RPolygon p)
    /\ draw (RRectangle r) handle args = draw (RPolygon p) handle args
    /\ draw (RRectangle r) handle args
       = Returned (handle ++ [HandlePolygon (points p)
                                (default default_width (arg_width args))
                                (default default_color (arg_color args))]).
Proof. eexists. split; [reflexivity|]. split; reflexivity. Qed.

(** X11: the four [draw] methods do not share a signature.
    [Special.draw] is refused unless both color and width are supplied,
    [Mask.draw] is refused whenever a width is supplied, and
    [Rectangle.draw] and [Polygon.draw] accept every combination; so
    there is no way of supplying color and width that all four variants
    accept: every call is refused by [Special] or by [Mask]. *)
Theorem draw_signatures_disagree (handle : DrawHandle) (args : draw_args)
    (s : Special) (r : Rectangle) (p : Polygon) (m : Mask) :
  (draw (RSpecial s) handle args = TypeError
   <-> arg_color args = None \/ arg_width args = None)
  /\ (draw (RMask m) handle args = TypeError <-> arg_width args <> None)
  /\ draw (RRectangle r) handle args <> TypeError
  /\ draw (RPolygon p) handle args <> TypeError
  /\ (draw (RSpecial s) handle args = TypeError
      \/ draw (RMask m) handle args = TypeError).
Proof.
  destruct args as [[c|] [w|]]; cbn; repeat split; intros;
    try discriminate; try congruence; try tauto; auto.
  - destruct H; discriminate.
Qed.

(** ** What the constructors share with their argument *)

(** X12: [Polygon(points)] stores the very list it was given and caches
    its length in [count]: after the caller appends a vertex to that
    list, the polygon's [points] has the new vertex while [count] still
    is the old length. *)
Theorem Polygon_new_obj_keeps_reference (h : heap) (l : loc)
    (pts : list point) (pt : point) :
  h !! l = Some (OList pts) -> pts <> [] ->
  exists a h1 h2,
    Polygon_new_obj h l = Ok (a, h1)
    /\ points_ref h1 a = Some l
    /\ load h1 a = Some (RPolygon (mk_Polygon (length pts) pts))
    /\ list_append h1 l pt = Some h2
    /\ load h2 a = Some (RPolygon (mk_Polygon (length pts) (pts ++ [pt]))).
Proof.
  intros Hl Hne. unfold Polygon_new_obj. rewrite Hl.
  destruct pts as [|p0 pts0]; [done|]. set (pts := p0 :: pts0) in *.
  destruct (alloc h (OPolygon (length pts) l)) as [a h1] eqn:E.
  apply alloc_spec in E as (Hfresh & Hnew & Hold).
  assert (l <> a) as Hla by (intros ->; congruence).
  exists a, h1, (<[l := OList (pts ++ [pt])]> h1).
  split; [reflexivity|].
  split; [unfold points_ref; by rewrite Hnew|].
  split; [unfold load; by rewrite Hnew, (Hold l Hla), Hl|].
  split; [unfold list_append; by rewrite (Hold l Hla), Hl|].
  unfold load. rewrite lookup_insert_ne by done. rewrite Hnew.
  by rewrite lookup_insert_eq.
Qed.

Lemma Polygon_new_obj_keeps_reference_witness :
  let h : heap := {[1%positive := OList [(0, 0); (1, 1)]%Q]} in
  exists a h1 h2,
    Polygon_new_obj h 1%positive = Ok (a, h1)
    /\ points_ref h1 a = Some 1%positive
    /\ load h1 a
       = Some (RPolygon (mk_Polygon (length [(0, 0); (1, 1)]%Q) [(0, 0); (1, 1)]%Q))
    /\ list_append h1 1%positive (2, 2)%Q = Some h2
    /\ load h2 a
       = Some (RPolygon (mk_Polygon (length [(0, 0); (1, 1)]%Q)
                           ([(0, 0); (1, 1)] ++ [(2, 2)])%Q)).
Proof.
  apply (Polygon_new_obj_keeps_reference {[1%positive := OList [(0, 0); (1, 1)]%Q]}
           1%positive [(0, 0); (1, 1)]%Q (2, 2)%Q).
  - reflexivity.
  - discriminate.
Defined.

(** X13: [Mask(mask, offset, optimize)] does not keep the array it was
    given: the instance refers to a new array holding the bitmap that
    the constructor computes, the argument array is left as it was, and
    a later assignment into the argument array does not change the
    mask. *)
Theorem Mask_new_obj_copies_input
    (mask2bbox : np.ndarray -> option (Z * Z * Z * Z))
    (h : heap) (l : loc) (input : np.ndarray) (off : Z * Z) (optimize : bool)
    (m : Mask) :
  h !! l = Some (OArray input) ->
  Mask_init mask2bbox input off optimize = Ok m ->
  exists a h1 l',
    Mask_new_obj mask2bbox h l off optimize = Some (Ok (a, h1))
    /\ load h1 a = Some (RMask m)
    /\ mask_ref h1 a = Some l' /\ l' <> l
    /\ h1 !! l = Some (OArray input)
    /\ forall i j v h2,
         array_setitem h1 l i j v = Some h2 -> load h2 a = Some (RMask m).
Proof.
  intros Hl Hinit. unfold Mask_new_obj. rewrite Hl.
  set (n := np.set_positive_to_one (np.astype_uint8 input)) in *.
  destruct (alloc h (OArray (np.astype_uint8 input))) as [l1 h1] eqn:E1.
  apply alloc_spec in E1 as (Hf1 & Hn1 & Ho1).
  set (h2 := <[l1 := OArray n]> h1).
  destruct (alloc h2 (OMask l1 off)) as [self h3] eqn:E3.
  apply alloc_spec in E3 as (Hf3 & Hn3 & Ho3).
  assert (l <> l1) as Hll1 by (intros ->; congruence).
  assert (h2 !! l1 = Some (OArray n)) as H2l1 by apply lookup_insert_eq.
  assert (h2 !! l = Some (OArray input)) as H2l
    by (unfold h2; rewrite lookup_insert_ne by done; by rewrite Ho1).
  assert (self <> l1) as Hsl1 by (intros ->; congruence).
  assert (self <> l) as Hsl by (intros ->; congruence).
  assert (forall (hh : heap) (lx : loc) (bm : np.ndarray) (o : Z * Z),
             hh !! self = Some (OMask lx o) -> hh !! lx = Some (OArray bm) ->
             hh !! l = Some (OArray input) -> lx <> l ->
             load hh self = Some (RMask (mk_Mask bm o))
             /\ mask_ref hh self = Some lx /\ lx <> l
             /\ hh !! l = Some (OArray input)
             /\ forall i j v h', array_setitem hh l i j v = Some h' ->
                  load h' self = Some (RMask (mk_Mask bm o))) as Hgen.
  { intros hh lx bm o Hs Hx Hin Hne.
    split; [unfold load; by rewrite Hs, Hx|].
    split; [unfold mask_ref; by rewrite Hs|]. split; [exact Hne|].
    split; [exact Hin|]. intros i j v h' Hset.
    unfold array_setitem in Hset. rewrite Hin in Hset.
    destruct (np.rows input !! i) as [rw|]; [|discriminate].
    destruct (bool_decide _); [|discriminate]. injection Hset as <-.
    unfold load. rewrite lookup_insert_ne by done. rewrite Hs.
    rewrite lookup_insert_ne by done. by rewrite Hx. }
  unfold Mask_init, Mask_optimize in Hinit. cbn [mask] in Hinit. fold n in Hinit.
  destruct optimize.
  - destruct (mask2bbox n) as [[[[b0 b1] b2] b3]|]; [|discriminate].
    cbn [external bind] in Hinit. injection Hinit as <-.
    destruct (alloc h3 (OArray (np.get_slice n b1 b3 b0 b2))) as [l2 h4] eqn:E4.
    apply alloc_spec in E4 as (Hf4 & Hn4 & Ho4).
    assert (l <> l2) as Hll2.
    { intros ->. rewrite Ho3 in Hf4 by done. congruence. }
    assert (self <> l2) as Hsl2 by (intros ->; congruence).
    exists self, (<[self := OMask l2 (b0, b1)]> h4), l2.
    split; [reflexivity|]. apply Hgen.
    + apply lookup_insert_eq.
    + rewrite lookup_insert_ne by done. exact Hn4.
    + rewrite lookup_insert_ne by done. rewrite Ho4 by done.
      rewrite Ho3 by done. exact H2l.
    + done.
  - injection Hinit as <-. exists self, h3, l1.
    split; [reflexivity|]. apply Hgen.
    + exact Hn3.
    + rewrite Ho3 by done. exact H2l1.
    + rewrite Ho3 by done. exact H2l.
    + done.
Qed.

Lemma Mask_new_obj_copies_input_witness :
  let input := np.mk_ndarray 2 [[0; 7]; [255; 1]] in
  let h : heap := {[1%positive := OArray input]} in
  let m := mk_Mask (np.mk_ndarray 2 [[0; 1]; [1; 1]]) (3, 4) in
  exists a h1 l',
    Mask_new_obj (fun _ => None) h 1%positive (3, 4) false = Some (Ok (a, h1))
    /\ load h1 a = Some (RMask m)
    /\ mask_ref h1 a = Some l' /\ l' <> 1%positive
    /\ h1 !! 1%positive = Some (OArray input)
    /\ forall i j v h2,
         array_setitem h1 1%positive i j v = Some h2 -> load h2 a = Some (RMask m).
Proof.
  apply (Mask_new_obj_copies_input (fun _ => None)
           {[1%positive := OArray (np.mk_ndarray 2 [[0; 7]; [255; 1]])]}
           1%positive (np.mk_ndarray 2 [[0; 7]; [255; 1]]) (3, 4) false
           (mk_Mask (np.mk_ndarray 2 [[0; 1]; [1; 1]]) (3, 4))).
  - reflexivity.
  - reflexivity.
Defined.

(** ** Two ways from a rectangle to a mask *)

#[local] Instance py_round_proper : Proper (Qeq ==> eq) py.round.
Proof.
  intros q q' H. assert (q == q')%Q as E by exact H. unfold py.round.
  rewrite (Qfloor_comp q q' E).
  assert ((q - inject_Z (Qfloor q') ?= 1 # 2)%Q
          = (q' - inject_Z (Qfloor q') ?= 1 # 2)%Q) as ->; [|reflexivity].
  apply Qcompare_comp; [|reflexivity]. by rewrite E.
Qed.




